(** * Assessment-AI: the marking pipeline of [src/ai_marking.py]

    A shallow embedding of class [AssessmentAI] and the properties its
    specification states about it.

    Conventions of the embedding.
    - A Python [str] is a [string]; a character is a code point below 256,
      on which [str.lower], [str.split] and [str.strip] are modelled exactly.
    - A Python [int] is a [Z] (a [nat] where it is a [len]); a Python
      [float] is the rational number it stands for, a [Q]: binary64 rounding
      is not modelled, [/] is exact division.  Module [Binary64] embeds the
      analytics aggregator a second time over binary64 floats, for the
      statements in which the rounding of a mean matters.
    - A [dict] read with [d.get(k, default)] is a record whose field is an
      [option]; a [dict] that is iterated is an association list in
      insertion order.
    - spaCy, [re], [requests], BeautifulSoup and [urlparse] are libraries
      outside the repository: they enter through the class [Capabilities]. *)

From Stdlib Require Import Bool Arith List String Ascii ZArith QArith Qround Lia Lqa.
From Stdlib Require Import DecimalString Sorted Permutation.
From Stdlib Require Import PrimFloat Uint63.
Import ListNotations.

Local Open Scope string_scope.
Local Open Scope list_scope.

(** ** Python built-ins on strings *)

Module PyStr.

(** [c.isspace()] for a code point below 256. *)
Definition is_space (c : ascii) : bool :=
  let n := nat_of_ascii c in
  (((9 <=? n) && (n <=? 13)) || ((28 <=? n) && (n <=? 32))
   || (n =? 133) || (n =? 160))%nat.

Definition lower_char (c : ascii) : ascii :=
  let n := nat_of_ascii c in
  if (((65 <=? n) && (n <=? 90))
      || ((192 <=? n) && (n <=? 222) && negb (n =? 215)))%nat
  then ascii_of_nat (n + 32) else c.

(** [s.lower()] *)
Fixpoint lower (s : string) : string :=
  match s with
  | EmptyString => EmptyString
  | String c s' => String (lower_char c) (lower s')
  end.

(** [bool(s)] *)
Definition nonempty (s : string) : bool :=
  match s with EmptyString => false | String _ _ => true end.

(** [sub in s] *)
Fixpoint contains (sub s : string) : bool :=
  prefix sub s ||
  match s with
  | EmptyString => false
  | String _ s' => contains sub s'
  end.

(** [s[:n]] *)
Fixpoint take (n : nat) (s : string) : string :=
  match n, s with
  | O, _ => EmptyString
  | _, EmptyString => EmptyString
  | S k, String c s' => String c (take k s')
  end.

Definition flush (cur : string) : list string :=
  if nonempty cur then [cur] else [].

Fixpoint split_ws_from (cur s : string) : list string :=
  match s with
  | EmptyString => flush cur
  | String c s' =>
      if is_space c then flush cur ++ split_ws_from EmptyString s'
      else split_ws_from (cur ++ String c EmptyString) s'
  end.

(** [s.split()] *)
Definition split_ws (s : string) : list string := split_ws_from EmptyString s.

Fixpoint split_from (sep : string) (skip : nat) (cur s : string) : list string :=
  match s with
  | EmptyString => [cur]
  | String c s' =>
      match skip with
      | S k => split_from sep k cur s'
      | O =>
          if prefix sep s
          then cur :: split_from sep (String.length sep - 1)%nat EmptyString s'
          else split_from sep 0%nat (cur ++ String c EmptyString) s'
      end
  end.

(** [s.split(sep)] for a non-empty [sep] *)
Definition split (sep s : string) : list string := split_from sep 0%nat EmptyString s.

Fixpoint lstrip_by (p : ascii -> bool) (s : string) : string :=
  match s with
  | EmptyString => EmptyString
  | String c s' => if p c then lstrip_by p s' else s
  end.

Fixpoint rstrip_by (p : ascii -> bool) (s : string) : string :=
  match s with
  | EmptyString => EmptyString
  | String c s' =>
      match rstrip_by p s' with
      | EmptyString => if p c then EmptyString else String c EmptyString
      | r => String c r
      end
  end.

(** [s.strip()] *)
Definition strip (s : string) : string := rstrip_by is_space (lstrip_by is_space s).

Definition mem_char (chars : string) (c : ascii) : bool :=
  existsb (Ascii.eqb c) (list_ascii_of_string chars).

(** [s.rstrip(chars)] *)
Definition rstrip (chars s : string) : string := rstrip_by (mem_char chars) s.

(** [s.endswith(suffix)] *)
Fixpoint endswith (s suffix : string) : bool :=
  String.eqb s suffix ||
  match s with
  | EmptyString => false
  | String _ s' => endswith s' suffix
  end.

(** [sep.join(l)] *)
Definition join (sep : string) (l : list string) : string := String.concat sep l.

(** [str(n)] for a [len] *)
Definition of_nat (n : nat) : string := NilZero.string_of_uint (Nat.to_uint n).

End PyStr.

(** ** Python numbers *)

Module PyNum.

Local Open Scope Q_scope.

Definition Qltb (x y : Q) : bool := negb (Qle_bool y x).

(** [round(x)]: to the nearest integer, a tie going to the even one. *)
Definition round (x : Q) : Z :=
  let f := Qfloor x in
  match Qcompare (x - inject_Z f) (1 # 2) with
  | Lt => f
  | Gt => (f + 1)%Z
  | Eq => if Z.even f then f else (f + 1)%Z
  end.

(** [sum(l)] *)
Definition sum (l : list Q) : Q := fold_left Qplus l 0.

(** [min(a, b)] and [max(a, b)]: the first argument wins a tie. *)
Definition min (a b : Q) : Q := if Qltb b a then b else a.
Definition max (a b : Q) : Q := if Qltb a b then b else a.

Definition of_nat (n : nat) : Q := inject_Z (Z.of_nat n).

End PyNum.

(** ** Exceptions *)

Inductive exn : Type := Exception (msg : string).

(** [str(e)] *)
Definition str_exn (e : exn) : string := match e with Exception m => m end.

Inductive result (A : Type) : Type :=
| Ok (a : A)
| Raise (e : exn).
Arguments Ok {A} a.
Arguments Raise {A} e.

Definition bind {A B : Type} (c : result A) (k : A -> result B) : result B :=
  match c with
  | Ok a => k a
  | Raise e => Raise e
  end.

Notation "x <- c ;; k" := (bind c (fun x => k))
  (at level 61, c at next level, right associativity).
Notation "c ;;; k" := (bind c (fun _ => k))
  (at level 61, right associativity).

(** ** Dictionaries in insertion order *)

Module Dict.
Section WithValue.

Context {V : Type}.

Definition t := list (string * V).

(** [d.get(k)] *)
Fixpoint get (k : string) (d : t) : option V :=
  match d with
  | [] => None
  | (k', v) :: d' => if String.eqb k k' then Some v else get k d'
  end.

(** [d[k] = v]: a present key keeps its place, a new one goes last. *)
Fixpoint set (k : string) (v : V) (d : t) : t :=
  match d with
  | [] => [(k, v)]
  | (k', v') :: d' =>
      if String.eqb k k' then (k', v) :: d' else (k', v') :: set k v d'
  end.

Definition keys (d : t) : list string := map fst d.

(** [k in d] *)
Definition mem (k : string) (d : t) : bool :=
  match get k d with Some _ => true | None => false end.

End WithValue.
Arguments t : clear implicits.
End Dict.

(** ** Data model *)

(** What the code reads of a spaCy token, span and document. *)
Record Token : Type := {
  tok_text : string;
  tok_pos : string;
  tok_is_alpha : bool
}.

Record Span : Type := {
  span_text : string;
  span_root : Token;
  span_label : string
}.

Record Doc : Type := {
  doc_text : string;
  doc_tokens : list Token;
  doc_sents : list Span;
  doc_noun_chunks : list Span;
  doc_ents : list Span
}.

(** What the code reads of a [requests] response and of a parsed page:
    [soup.title] and its [.string], the text of every [p], and the
    [description] meta tag with its [content] attribute. *)
Record Response : Type := {
  status_code : Z;
  resp_text : string
}.

Record Soup : Type := {
  soup_title : option (option string);
  soup_paragraphs : list string;
  soup_meta_description : option (option string)
}.

Record Criterion : Type := {
  name : string;
  weight : option Z;
  description : option string;
  keywords : option (list string)
}.

Record RubricAnalysis : Type := {
  criteria : option (list Criterion);
  grade_boundaries : option (Dict.t (Z * Z));
  rubric_full_text : string
}.

Record BriefAnalysis : Type := {
  requirements : list string;
  learning_outcomes : list string;
  submission_details : list string;
  key_topics : option (list string);
  brief_full_text : string
}.

Record UrlRecord : Type := {
  ua_url : string;
  ua_title : option string;
  ua_meta_description : string;
  ua_key_phrases : option (list string);
  ua_entities : option (list (string * string));
  ua_content_sample : string
}.

(** The dictionary [analyze_url_content] returns: the analysis, or
    [{'url', 'error', 'status'}]. *)
Inductive UrlAnalysis : Type :=
| Analysed (r : UrlRecord)
| Failed (url error status : string).

Record CriterionFeedback : Type := {
  strength : option string;
  weakness : option string;
  suggestions : string
}.

Record CriterionMark : Type := {
  cm_name : string;
  cm_score : Z;
  cm_max_score : Z;
  cm_feedback : CriterionFeedback
}.

Record OverallFeedback : Type := {
  general_comments : string;
  strengths : list string;
  areas_for_improvement : list string;
  recommendations : list string
}.

Record Statistics : Type := {
  word_count : nat;
  sentence_count : nat;
  avg_sentence_length : Q;
  url_count : nat;
  topic_coverage : Q
}.

Record MarkingResult : Type := {
  total_score : Z;
  max_score : Z;
  percentage : Q;
  grade : string;
  criteria_marks : list CriterionMark;
  feedback : OverallFeedback;
  statistics : Statistics;
  url_analyses : list UrlAnalysis
}.

(** ** The libraries the module calls *)

Class Capabilities : Type := {
  (** [nlp(text)] *)
  nlp : string -> Doc;
  (** [a.similarity(b)] *)
  similarity : Doc -> Doc -> Q;
  (** [set(stopwords.words('english'))] *)
  stop_words : list string;
  (** [list(set(l))]: the distinct elements of [l], in the order the
      interpreter iterates over the set. *)
  list_of_set : list string -> list string;
  (** [re.findall(percentage_pattern, text, re.DOTALL)] in [process_rubric];
      here and below a capture of digits is given as the number [int]
      reads from it. *)
  findall_criteria : string -> list (string * Z * string);
  (** [re.search(grade_patterns[label], text, re.IGNORECASE)]: groups 1
      and 2, the second one optional *)
  search_grade : string -> string -> option (Z * option Z);
  (** [re.finditer(percentage_pattern, text)] in [_extract_grade_boundaries]:
      groups 1, 2 and 3 *)
  finditer_ranges : string -> list (Z * Z * string);
  (** [re.findall(url_pattern, text)] *)
  findall_urls : string -> list string;
  (** [urlparse(url)]: scheme and netloc *)
  urlparse : string -> result (string * string);
  (** [requests.get(url, headers=headers, timeout=10)] *)
  requests_get : string -> result Response;
  (** [response.raise_for_status()] *)
  raise_for_status : Response -> result unit;
  (** [BeautifulSoup(text, 'html.parser')] *)
  BeautifulSoup : string -> result Soup
}.

(** ** Class [AssessmentAI] *)

Module AssessmentAI.
Section WithCapabilities.

Context `{Capabilities}.

Definition is_noun (pos : string) : bool :=
  String.eqb pos "NOUN" || String.eqb pos "PROPN".

Definition in_list (s : string) (l : list string) : bool :=
  existsb (String.eqb s) l.

(** [l.sort(key=len, reverse=True)]: stable, longest first. *)
Fixpoint insert_by_len (x : string) (l : list string) : list string :=
  match l with
  | [] => [x]
  | y :: l' =>
      if (String.length x <? String.length y)%nat
      then y :: insert_by_len x l'
      else x :: l
  end.

Definition sort_by_len (l : list string) : list string :=
  fold_right insert_by_len [] l.

Definition _extract_keywords (text : string) : list string :=
  let doc := nlp text in
  let entities := map (fun ent => PyStr.lower (span_text ent)) (doc_ents doc) in
  let phrases :=
    map (fun chunk => PyStr.lower (span_text chunk))
      (filter (fun chunk =>
                 is_noun (tok_pos (span_root chunk))
                 && tok_is_alpha (span_root chunk)
                 && negb (in_list (PyStr.lower (tok_text (span_root chunk))) stop_words))
         (doc_noun_chunks doc)) in
  let verbs :=
    map (fun token => PyStr.lower (tok_text token))
      (filter (fun token =>
                 String.eqb (tok_pos token) "VERB"
                 && tok_is_alpha token
                 && negb (in_list (PyStr.lower (tok_text token)) stop_words))
         (doc_tokens doc)) in
  firstn 20 (sort_by_len (list_of_set (entities ++ phrases ++ verbs))).

Definition grade_labels : list string :=
  ["A"; "B"; "C"; "D"; "F"; "Fail"; "Pass"; "Merit"; "Distinction"].

Definition labelled_boundary (text : string)
    (boundaries : Dict.t (Z * Z)) (label : string) : Dict.t (Z * Z) :=
  match search_grade label text with
  | None => boundaries
  | Some (g1, Some g2) => Dict.set label (g1, g2) boundaries
  | Some (g1, None) => Dict.set label (g1, g1) boundaries
  end.

Definition inferred_boundary
    (boundaries : Dict.t (Z * Z)) (m : Z * Z * string) : Dict.t (Z * Z) :=
  let '(g1, g2, g3) := m in
  Dict.set (PyStr.strip g3) (g1, g2) boundaries.

Definition _extract_grade_boundaries (text : string) : Dict.t (Z * Z) :=
  match fold_left (labelled_boundary text) grade_labels [] with
  | [] => fold_left inferred_boundary (finditer_ranges text) []
  | boundaries => boundaries
  end.

(** First pass of [process_rubric]: headers of the shape [Name (N%):]. *)
Definition weighted_criterion (m : string * Z * string) : Criterion :=
  let '(n, w, d) := m in
  {| name := PyStr.strip n;
     weight := Some w;
     description := Some (PyStr.strip d);
     keywords := Some (_extract_keywords (PyStr.strip d)) |}.

Definition weighted_pattern_pass (rubric_text : string) : list Criterion :=
  map weighted_criterion (findall_criteria rubric_text).

(** Second pass: short paragraphs ending in [:] or [)] are headers. *)
Record ParagraphState : Type := {
  ps_criteria : list Criterion;
  current_criterion : option string;
  current_description : list string
}.

(** [bool(x)] for [x] a string or [None] *)
Definition truthy (x : option string) : bool :=
  match x with
  | Some s => PyStr.nonempty s
  | None => false
  end.

Definition close_criterion (st : ParagraphState) : list Criterion :=
  match current_criterion st with
  | Some n =>
      if PyStr.nonempty n
      then ps_criteria st ++
           [ {| name := n;
                weight := Some 25%Z;
                description := Some (PyStr.join " " (current_description st));
                keywords := Some (_extract_keywords (PyStr.join " " (current_description st))) |} ]
      else ps_criteria st
  | None => ps_criteria st
  end.

Definition is_header (para : string) : bool :=
  (List.length (PyStr.split_ws para) <=? 10)%nat
  && (PyStr.endswith para ":" || PyStr.endswith para ")").

Definition paragraph_step (st : ParagraphState) (para0 : string) : ParagraphState :=
  let para := PyStr.strip para0 in
  if negb (PyStr.nonempty para) then st
  else if is_header para then
    {| ps_criteria := close_criterion st;
       current_criterion := Some (PyStr.rstrip ":)" para);
       current_description := [] |}
  else if truthy (current_criterion st) then
    {| ps_criteria := ps_criteria st;
       current_criterion := current_criterion st;
       current_description := current_description st ++ [para] |}
  else st.

Definition paragraph_heuristic_pass (rubric_text : string) : list Criterion :=
  close_criterion
    (fold_left paragraph_step
       (PyStr.split (String "010" (String "010" EmptyString)) rubric_text)
       {| ps_criteria := []; current_criterion := None; current_description := [] |}).

Definition default_criteria : list Criterion :=
  [ {| name := "Content"; weight := Some 40%Z;
       description := Some "Quality and comprehensiveness of content";
       keywords := Some ["content"; "quality"; "comprehensive"; "understanding"; "knowledge"] |};
    {| name := "Structure"; weight := Some 30%Z;
       description := Some "Organization and logical flow";
       keywords := Some ["structure"; "organization"; "flow"; "coherent"; "logical"] |};
    {| name := "Research"; weight := Some 20%Z;
       description := Some "Use of sources and evidence";
       keywords := Some ["research"; "sources"; "evidence"; "references"; "citation"] |};
    {| name := "Language"; weight := Some 10%Z;
       description := Some "Grammar, spelling, and academic writing style";
       keywords := Some ["language"; "grammar"; "spelling"; "writing"; "style"] |} ].

Definition process_rubric (rubric_text : string) : RubricAnalysis :=
  let found := weighted_pattern_pass rubric_text in
  let found :=
    match found with
    | [] => paragraph_heuristic_pass rubric_text
    | _ => found
    end in
  let found :=
    match found with
    | [] => default_criteria
    | _ => found
    end in
  {| criteria := Some found;
     grade_boundaries := Some (_extract_grade_boundaries rubric_text);
     rubric_full_text := rubric_text |}.

(** *** Reference resolver *)

Definition valid_url (url : string) : bool :=
  match urlparse url with
  | Ok (scheme, netloc) => PyStr.nonempty scheme && PyStr.nonempty netloc
  | Raise _ => false
  end.

Definition extract_urls (text : string) : list string :=
  filter valid_url (findall_urls text).

Definition multi_word (s : string) : bool :=
  (1 <? List.length (PyStr.split_ws s))%nat.

(** [content[:500] + "..." if len(content) > 500 else content] *)
Definition content_sample (content : string) : string :=
  if (500 <? String.length content)%nat
  then (PyStr.take 500 content ++ "...")%string
  else content.

(** The text of all the paragraphs, a space after each. *)
Definition page_content (soup : Soup) : string :=
  fold_left (fun content para => (content ++ para ++ " ")%string) (soup_paragraphs soup) EmptyString.

(** The body of the [try] block of [analyze_url_content]. *)
Definition analyze_url_body (url : string) : result UrlAnalysis :=
  response <- requests_get url ;;
  raise_for_status response ;;;
  soup <- BeautifulSoup (resp_text response) ;;
  let title :=
    match soup_title soup with
    | Some t => t
    | None => Some "No title"
    end in
  let content := page_content soup in
  let meta_description :=
    match soup_meta_description soup with
    | Some (Some c) => c
    | Some None => EmptyString
    | None => EmptyString
    end in
  if PyStr.nonempty content then
    let doc := nlp (PyStr.take 5000 content) in
    let key_phrases_ :=
      firstn 10 (map span_text
                   (filter (fun chunk => multi_word (span_text chunk)) (doc_noun_chunks doc))) in
    let entities_ :=
      firstn 10 (map (fun ent => (span_text ent, span_label ent)) (doc_ents doc)) in
    Ok (Analysed {| ua_url := url;
                    ua_title := title;
                    ua_meta_description := meta_description;
                    ua_key_phrases := Some key_phrases_;
                    ua_entities := Some entities_;
                    ua_content_sample := content_sample content |})
  else
    Ok (Analysed {| ua_url := url;
                    ua_title := title;
                    ua_meta_description := meta_description;
                    ua_key_phrases := None;
                    ua_entities := None;
                    ua_content_sample := content_sample content |}).

(** [try: ... except Exception as e: return {'url', 'error': str(e), 'status': 'failed'}] *)
Definition analyze_url_content (url : string) : UrlAnalysis :=
  match analyze_url_body url with
  | Ok analysis => analysis
  | Raise e => Failed url (str_exn e) "failed"
  end.

(** *** Marking engine *)

Definition similar_topics (brief_topic student_topic : string) : bool :=
  if PyStr.contains brief_topic student_topic || PyStr.contains student_topic brief_topic
  then true
  else PyNum.Qltb (7 # 10) (similarity (nlp brief_topic) (nlp student_topic)).

(** The inner loop of [_calculate_topic_coverage]: stops at the first
    student topic that covers the brief topic. *)
Fixpoint topic_is_covered (brief_topic : string) (student_topics : list string) : bool :=
  match student_topics with
  | [] => false
  | student_topic :: rest =>
      if similar_topics brief_topic student_topic then true
      else topic_is_covered brief_topic rest
  end.

Definition count_covered (student_topics brief_topics : list string) : nat :=
  fold_left
    (fun covered_topics brief_topic =>
       if topic_is_covered brief_topic student_topics
       then S covered_topics else covered_topics)
    brief_topics 0%nat.

Definition _calculate_topic_coverage (student_topics brief_topics : list string) : Q :=
  match brief_topics with
  | [] => 1
  | _ =>
      PyNum.of_nat (count_covered student_topics brief_topics)
      / PyNum.of_nat (List.length brief_topics)
  end.

Definition count_keywords (text : string) (criterion_keywords : list string) : nat :=
  fold_left
    (fun keyword_count keyword =>
       if PyStr.contains (PyStr.lower keyword) text
       then S keyword_count else keyword_count)
    criterion_keywords 0%nat.

Definition _calculate_criterion_relevance (doc : Doc) (criterion_keywords : list string) : Q :=
  match criterion_keywords with
  | [] => 1 # 2
  | _ =>
      let text := PyStr.lower (doc_text doc) in
      let keyword_count := count_keywords text criterion_keywords in
      let relevance :=
        match criterion_keywords with
        | [] => 0
        | _ => PyNum.of_nat keyword_count / PyNum.of_nat (List.length criterion_keywords)
        end in
      PyNum.min (9 # 10) (PyNum.max (3 # 10) relevance)
  end.

(** Called with [max_score = 10] only; [/] on a zero [max_score] would raise. *)
Definition _generate_criterion_feedback
    (criterion_name : string) (score max_score_ : Z)
    (student_text criterion_description : string) : CriterionFeedback :=
  let pct := (inject_Z score / inject_Z max_score_ * 100)%Q in
  let lname := PyStr.lower criterion_name in
  let suggestion :=
    ("Consider reviewing the requirements for " ++ lname ++ " in the assessment brief")%string in
  if Qle_bool 80 pct then
    {| strength := Some ("Excellent demonstration of " ++ lname)%string;
       weakness := None;
       suggestions := suggestion |}
  else if Qle_bool 60 pct then
    {| strength := Some ("Good demonstration of " ++ lname)%string;
       weakness := Some ("Could further improve " ++ lname ++ " by providing more depth")%string;
       suggestions := suggestion |}
  else if Qle_bool 40 pct then
    {| strength := Some ("Adequate demonstration of " ++ lname)%string;
       weakness := Some ("Need to develop " ++ lname ++ " more thoroughly")%string;
       suggestions := suggestion |}
  else
    {| strength := None;
       weakness := Some ("Significant improvement needed in " ++ lname)%string;
       suggestions := suggestion |}.

Definition default_boundaries : Dict.t (Z * Z) :=
  [ ("A", (80, 100)); ("B", (70, 79)); ("C", (60, 69)); ("D", (50, 59)); ("F", (0, 49)) ]%Z.

(** [for grade, (lower, upper) in boundaries.items(): if lower <= percentage <= upper: return grade] *)
Fixpoint first_band (pct : Q) (boundaries : Dict.t (Z * Z)) : option string :=
  match boundaries with
  | [] => None
  | (g, (lower, upper)) :: rest =>
      if Qle_bool (inject_Z lower) pct && Qle_bool pct (inject_Z upper)
      then Some g else first_band pct rest
  end.

Definition _determine_grade (pct : Q) (boundaries_ : Dict.t (Z * Z)) : string :=
  let boundaries :=
    match boundaries_ with
    | [] => default_boundaries
    | _ => boundaries_
    end in
  match first_band pct boundaries with
  | Some g => g
  | None =>
      if Qle_bool 80 pct then "A"
      else if Qle_bool 70 pct then "B"
      else if Qle_bool 60 pct then "C"
      else if Qle_bool 50 pct then "D"
      else "F"
  end.

Definition collect_truthy (f : CriterionMark -> option string) (marks : list CriterionMark)
  : list string :=
  flat_map (fun criterion =>
              match f criterion with
              | Some s => if PyStr.nonempty s then [s] else []
              | None => []
              end) marks.

Definition _generate_overall_feedback
    (marks : list CriterionMark) (pct : Q) (grade_ : string)
    (coverage : Q) (analyses : list UrlAnalysis) : OverallFeedback :=
  let strengths_ := collect_truthy (fun c => strength (cm_feedback c)) marks in
  let areas := collect_truthy (fun c => weakness (cm_feedback c)) marks in
  let general :=
    if Qle_bool 80 pct then
      "Excellent work that demonstrates a comprehensive understanding of the subject matter."
    else if Qle_bool 70 pct then
      "Very good work that shows a solid understanding of the subject matter."
    else if Qle_bool 60 pct then
      "Good work that demonstrates understanding of most key aspects of the subject matter."
    else if Qle_bool 50 pct then
      "Satisfactory work that meets the basic requirements but lacks depth in some areas."
    else
      "This work does not meet the minimum requirements and needs significant improvement." in
  let general :=
    if PyNum.Qltb (8 # 10) coverage then
      (general ++ " The work covers all key topics effectively.")%string
    else if PyNum.Qltb (6 # 10) coverage then
      (general ++ " The work covers most key topics but could be more comprehensive.")%string
    else
      (general ++ " The work misses several key topics that should be addressed.")%string in
  let general :=
    match analyses with
    | [] => general
    | _ =>
        (general ++ " The work incorporates " ++ PyStr.of_nat (List.length analyses)
           ++ " external sources, which adds to its depth.")%string
    end in
  let fixed :=
    [ "Review the assessment brief to ensure all requirements are met";
      "Consider the feedback for each criterion to improve future work" ] in
  {| general_comments := general;
     strengths := strengths_;
     areas_for_improvement := areas;
     recommendations :=
       match areas with
       | [] => fixed
       | _ => fixed ++ ["Focus on addressing the identified areas for improvement"]
       end |}.

(** The three accumulators of the loop over the criteria. *)
Record MarkState : Type := {
  ms_criteria_marks : list CriterionMark;
  ms_total_score : Z;
  ms_max_score : Z
}.

Definition criterion_keywords_of (criterion : Criterion) : list string :=
  match keywords criterion with Some l => l | None => [] end.

Definition criterion_score (doc : Doc) (criterion : Criterion) : Z :=
  PyNum.round (_calculate_criterion_relevance doc (criterion_keywords_of criterion) * 10).

(** The dictionary appended to [criteria_marks] for one criterion. *)
Definition criterion_mark (student_work_text : string) (doc : Doc)
    (criterion : Criterion) : CriterionMark :=
  let criterion_name := name criterion in
  let criterion_max_score := 10%Z in
  let score := criterion_score doc criterion in
  let criterion_feedback :=
    _generate_criterion_feedback criterion_name score criterion_max_score
      student_work_text
      (match description criterion with Some d => d | None => EmptyString end) in
  {| cm_name := criterion_name;
     cm_score := score;
     cm_max_score := criterion_max_score;
     cm_feedback := criterion_feedback |}.

Definition mark_criterion (student_work_text : string) (doc : Doc)
    (st : MarkState) (criterion : Criterion) : MarkState :=
  let m := criterion_mark student_work_text doc criterion in
  {| ms_criteria_marks := ms_criteria_marks st ++ [m];
     ms_total_score := (ms_total_score st + cm_score m)%Z;
     ms_max_score := (ms_max_score st + cm_max_score m)%Z |}.

Definition rubric_criteria (rubric_analysis : RubricAnalysis) : list Criterion :=
  match criteria rubric_analysis with Some l => l | None => [] end.

Definition mark_student_work (student_work_text : string)
    (brief_analysis : BriefAnalysis) (rubric_analysis : RubricAnalysis) : MarkingResult :=
  let urls := extract_urls student_work_text in
  (* every analysis is a non-empty dictionary, so [if url_analysis] keeps it *)
  let analyses := map analyze_url_content (firstn 5 urls) in
  let doc := nlp student_work_text in
  let words := List.length (filter tok_is_alpha (doc_tokens doc)) in
  let sentences := List.length (doc_sents doc) in
  let avg_len :=
    if (0 <? sentences)%nat then PyNum.of_nat words / PyNum.of_nat sentences else 0 in
  let student_topics :=
    map (fun chunk => PyStr.lower (span_text chunk))
      (filter (fun chunk =>
                 multi_word (span_text chunk) && is_noun (tok_pos (span_root chunk)))
         (doc_noun_chunks doc)) in
  let brief_topics :=
    match key_topics brief_analysis with Some l => l | None => [] end in
  let coverage := _calculate_topic_coverage student_topics brief_topics in
  let st :=
    fold_left (mark_criterion student_work_text doc) (rubric_criteria rubric_analysis)
      {| ms_criteria_marks := []; ms_total_score := 0; ms_max_score := 0 |} in
  let pct :=
    if (0 <? ms_max_score st)%Z
    then inject_Z (ms_total_score st) / inject_Z (ms_max_score st) * 100
    else 0 in
  let grade_ :=
    _determine_grade pct
      (match grade_boundaries rubric_analysis with Some b => b | None => [] end) in
  {| total_score := ms_total_score st;
     max_score := ms_max_score st;
     percentage := pct;
     grade := grade_;
     criteria_marks := ms_criteria_marks st;
     feedback :=
       _generate_overall_feedback (ms_criteria_marks st) pct grade_ coverage analyses;
     statistics :=
       {| word_count := words;
          sentence_count := sentences;
          avg_sentence_length := avg_len;
          url_count := List.length urls;
          topic_coverage := coverage |};
     url_analyses := analyses |}.

End WithCapabilities.

(** *** Analytics aggregator (uses no library) *)

(** What [generate_analytics] reads of a marking result. *)
Record MarkEntry : Type := {
  me_name : string;
  me_score : Q;
  me_max_score : Q
}.

Record StatsEntry : Type := {
  se_word_count : option Z;
  se_url_count : option Z
}.

Record ResultEntry : Type := {
  re_percentage : Q;
  re_grade : option string;
  re_criteria_marks : option (list MarkEntry);
  re_statistics : option StatsEntry
}.

Record Summary : Type := {
  count : nat;
  avg_percentage : Q;
  grade_distribution : Dict.t nat
}.

Record CriteriaAnalysis : Type := {
  averages : Dict.t Q;
  ca_strengths : list string;
  ca_weaknesses : list string
}.

Record WordCountStats : Type := {
  wc_average : Q;
  wc_minimum : Z;
  wc_maximum : Z
}.

Record Analytics : Type := {
  summary : Summary;
  criteria_analysis : CriteriaAnalysis;
  statistics_word_count : WordCountStats;
  statistics_url_usage_average : Q
}.

(** [{'error': ...}] or the analytics dictionary. *)
Inductive AnalyticsResult : Type :=
| NoData (error : string)
| Report (a : Analytics).

(** [sum(l) / len(l)] *)
Definition mean (l : list Q) : Q := PyNum.sum l / PyNum.of_nat (List.length l).

Definition entry_marks (r : ResultEntry) : list MarkEntry :=
  match re_criteria_marks r with Some l => l | None => [] end.

Definition entry_percentage (c : MarkEntry) : Q :=
  if PyNum.Qltb 0 (me_max_score c) then me_score c / me_max_score c * 100 else 0.

Definition count_grade (d : Dict.t nat) (g : string) : Dict.t nat :=
  Dict.set g (match Dict.get g d with Some n => n | None => 0 end + 1)%nat d.

(** [if name not in d: d[name] = []] then [d[name].append(percentage)] *)
Definition collect_mark (d : Dict.t (list Q)) (c : MarkEntry) : Dict.t (list Q) :=
  let d1 := if Dict.mem (me_name c) d then d else Dict.set (me_name c) [] d in
  match Dict.get (me_name c) d1 with
  | Some scores => Dict.set (me_name c) (scores ++ [entry_percentage c]) d1
  | None => d1
  end.

Definition collect_result (d : Dict.t (list Q)) (r : ResultEntry) : Dict.t (list Q) :=
  fold_left collect_mark (entry_marks r) d.

Definition criteria_averages (marking_results : list ResultEntry) : Dict.t Q :=
  map (fun '(n, scores) => (n, mean scores))
    (fold_left collect_result marking_results []).

Definition classify (acc : list string * list string) (item : string * Q)
  : list string * list string :=
  let '(n, avg) := item in
  if Qle_bool 70 avg then (fst acc ++ [n], snd acc)
  else if Qle_bool avg 50 then (fst acc, snd acc ++ [n])
  else acc.

Definition stat_or_zero (f : StatsEntry -> option Z) (r : ResultEntry) : Z :=
  match re_statistics r with
  | Some s => match f s with Some n => n | None => 0%Z end
  | None => 0%Z
  end.

(** [min(l)] and [max(l)] of a non-empty list of integers *)
Definition list_min (l : list Z) : Z :=
  match l with [] => 0%Z | x :: r => fold_left Z.min r x end.
Definition list_max (l : list Z) : Z :=
  match l with [] => 0%Z | x :: r => fold_left Z.max r x end.

Definition generate_analytics (marking_results : list ResultEntry) : AnalyticsResult :=
  match marking_results with
  | [] => NoData "No marking results provided"
  | _ =>
      let total_percentages := map re_percentage marking_results in
      let grades :=
        map (fun r => match re_grade r with Some g => g | None => "N/A" end) marking_results in
      let avgs := criteria_averages marking_results in
      let sw := fold_left classify avgs ([], []) in
      let word_counts := map (stat_or_zero se_word_count) marking_results in
      let url_counts := map (stat_or_zero se_url_count) marking_results in
      Report
        {| summary :=
             {| count := List.length marking_results;
                avg_percentage := mean total_percentages;
                grade_distribution := fold_left count_grade grades [] |};
           criteria_analysis :=
             {| averages := avgs;
                ca_strengths := fst sw;
                ca_weaknesses := snd sw |};
           statistics_word_count :=
             {| wc_average :=
                  match word_counts with [] => 0 | _ => mean (map inject_Z word_counts) end;
                wc_minimum := list_min word_counts;
                wc_maximum := list_max word_counts |};
           statistics_url_usage_average :=
             match url_counts with [] => 0 | _ => mean (map inject_Z url_counts) end |}
  end.

(** *** Recommendation generator (uses no library) *)

Record Recommendation : Type := {
  rec_text : string;
  rec_type : string;
  rec_priority : string
}.

(** What [generate_recommendations] reads of the analytics dictionary; every
    key is read with [get] and a default.  [av_has_error] says that the key
    ['error'] is present, [av_other_keys] that some key the function does
    not read is. *)
Record AverageView : Type := {
  avv_average : option Q
}.

Record StatisticsView : Type := {
  stv_word_count : option AverageView;
  stv_url_usage : option AverageView
}.

Record SummaryView : Type := {
  smv_avg_percentage : option Q
}.

Record CriteriaAnalysisView : Type := {
  cav_weaknesses : option (list string);
  cav_strengths : option (list string);
  cav_averages : option (Dict.t Q)
}.

Record AnalyticsView : Type := {
  av_has_error : bool;
  av_other_keys : bool;
  av_summary : option SummaryView;
  av_criteria_analysis : option CriteriaAnalysisView;
  av_statistics : option StatisticsView
}.

(** [bool(analytics)] for a dictionary: it has a key. *)
Definition view_nonempty (a : AnalyticsView) : bool :=
  av_has_error a || av_other_keys a
  || match av_summary a with Some _ => true | None => false end
  || match av_criteria_analysis a with Some _ => true | None => false end
  || match av_statistics a with Some _ => true | None => false end.

Definition insufficient_data : Recommendation :=
  {| rec_text := "Not enough data to generate recommendations";
     rec_type := "general";
     rec_priority := "low" |}.

Definition weakness_recommendation (w : string) : Recommendation :=
  {| rec_text :=
       ("Consider revising teaching materials related to '" ++ w
          ++ "' as students are scoring lower in this area")%string;
     rec_type := "content";
     rec_priority := "high" |}.

Definition below_expectations : Recommendation :=
  {| rec_text := "Overall student performance is below expectations. Consider reviewing the assessment brief for clarity and providing additional support materials";
     rec_type := "assessment";
     rec_priority := "high" |}.

Definition raise_challenge : Recommendation :=
  {| rec_text := "Students are performing exceptionally well. Consider increasing the challenge level in future assessments";
     rec_type := "assessment";
     rec_priority := "medium" |}.

Definition brief_submissions : Recommendation :=
  {| rec_text := "Student submissions are quite brief. Consider providing clearer guidelines on expected depth and detail";
     rec_type := "guidance";
     rec_priority := "medium" |}.

Definition few_sources : Recommendation :=
  {| rec_text := "Students are using few external sources. Consider emphasizing the importance of research and citation";
     rec_type := "guidance";
     rec_priority := "medium" |}.

Definition example_work : Recommendation :=
  {| rec_text := "Provide more example work to help students understand expectations";
     rec_type := "guidance";
     rec_priority := "low" |}.

Definition peer_review : Recommendation :=
  {| rec_text := "Consider peer review activities to help students understand assessment criteria";
     rec_type := "activity";
     rec_priority := "medium" |}.

Definition view_weaknesses (a : AnalyticsView) : list string :=
  match av_criteria_analysis a with
  | Some ca => match cav_weaknesses ca with Some l => l | None => [] end
  | None => []
  end.

Definition view_avg_percentage (a : AnalyticsView) : Q :=
  match av_summary a with
  | Some sm => match smv_avg_percentage sm with Some x => x | None => 0 end
  | None => 0
  end.

Definition view_average (f : StatisticsView -> option AverageView) (a : AnalyticsView) : Q :=
  match av_statistics a with
  | Some st =>
      match f st with
      | Some av => match avv_average av with Some x => x | None => 0 end
      | None => 0
      end
  | None => 0
  end.

(** [analytics] is [None] or a dictionary. *)
Definition generate_recommendations (analytics : option AnalyticsView) : list Recommendation :=
  match analytics with
  | None => [insufficient_data]
  | Some a =>
      if negb (view_nonempty a) || av_has_error a then [insufficient_data]
      else
        let recs := map weakness_recommendation (view_weaknesses a) in
        let avg_pct := view_avg_percentage a in
        let recs :=
          if PyNum.Qltb avg_pct 60 then recs ++ [below_expectations]
          else if PyNum.Qltb 80 avg_pct then recs ++ [raise_challenge]
          else recs in
        let recs :=
          if PyNum.Qltb (view_average stv_word_count a) 500
          then recs ++ [brief_submissions] else recs in
        let recs :=
          if PyNum.Qltb (view_average stv_url_usage a) 2
          then recs ++ [few_sources] else recs in
        recs ++ [example_work] ++ [peer_review]
  end.

(** *** Brief parser *)

Section BriefParser.

Context `{Capabilities}.

(** [re.search(r'(c1|c2|...)', sent_text, re.IGNORECASE)] for alternatives
    [cues] made of lower-case letters and spaces: some alternative occurs
    in the text, letter case apart. *)
Definition search_cues (cues : list string) (sent_text : string) : bool :=
  existsb (fun cue => PyStr.contains cue (PyStr.lower sent_text)) cues.

Definition requirement_cues : list string :=
  ["must"; "should"; "need to"; "required to"; "expected to"].

Definition outcome_cues : list string :=
  ["learning outcome"; "will be able to"; "demonstrate"; "understand"; "apply"].

Definition submission_cues : list string :=
  ["submit"; "submission"; "deadline"; "due date"; "format"; "word count"].

(** The three lists the loop over the sentences appends to. *)
Record Buckets : Type := {
  bk_requirements : list string;
  bk_learning_outcomes : list string;
  bk_submission_details : list string
}.

Definition classify_sentence (b : Buckets) (sent : Span) : Buckets :=
  let sent_text := PyStr.strip (span_text sent) in
  {| bk_requirements :=
       if search_cues requirement_cues sent_text
       then bk_requirements b ++ [sent_text] else bk_requirements b;
     bk_learning_outcomes :=
       if search_cues outcome_cues sent_text
       then bk_learning_outcomes b ++ [sent_text] else bk_learning_outcomes b;
     bk_submission_details :=
       if search_cues submission_cues sent_text
       then bk_submission_details b ++ [sent_text] else bk_submission_details b |}.

Definition brief_topics_of (doc : Doc) : list string :=
  let topics :=
    map span_text (filter (fun chunk => multi_word (span_text chunk)) (doc_noun_chunks doc)) in
  firstn 10
    (list_of_set
       (map PyStr.lower (filter (fun topic => (5 <? String.length topic)%nat) topics))).

Definition process_assessment_brief (brief_text : string) : BriefAnalysis :=
  let doc := nlp brief_text in
  let b :=
    fold_left classify_sentence (doc_sents doc)
      {| bk_requirements := []; bk_learning_outcomes := []; bk_submission_details := [] |} in
  {| requirements := bk_requirements b;
     learning_outcomes := bk_learning_outcomes b;
     submission_details := bk_submission_details b;
     key_topics := Some (brief_topics_of doc);
     brief_full_text := brief_text |}.

End BriefParser.

End AssessmentAI.

(** ** The specification's wording of the quantities it names *)

Module Spec.
Section WithCapabilities.

Context `{Capabilities}.

(** A rubric analysis with the declared weights erased: two analyses are
    identical except for their weights when erasing them makes them equal. *)
Definition erase_weight (c : Criterion) : Criterion :=
  {| name := name c;
     weight := None;
     description := description c;
     keywords := keywords c |}.

Definition erase_weights (r : RubricAnalysis) : RubricAnalysis :=
  {| criteria := option_map (map erase_weight) (criteria r);
     grade_boundaries := grade_boundaries r;
     rubric_full_text := rubric_full_text r |}.

(** Clamping to the interval from [lo] to [hi]. *)
Definition clamp (lo hi x : Q) : Q :=
  if PyNum.Qltb x lo then lo else if PyNum.Qltb hi x then hi else x.

(** A keyword is present when, lower-cased, it is a substring of the
    lower-cased text. *)
Definition present_in (text keyword : string) : bool :=
  PyStr.contains (PyStr.lower keyword) (PyStr.lower text).

(** The fraction of the keywords that are present in the text. *)
Definition fraction_present (text : string) (kws : list string) : Q :=
  PyNum.of_nat (List.length (filter (present_in text) kws))
  / PyNum.of_nat (List.length kws).

(** The fixed banding: A from 80, B from 70, C from 60, D from 50, else F. *)
Definition fixed_band (pct : Q) : string :=
  if Qle_bool 80 pct then "A"
  else if Qle_bool 70 pct then "B"
  else if Qle_bool 60 pct then "C"
  else if Qle_bool 50 pct then "D"
  else "F".

(** A brief topic is covered when some student topic contains it, or is
    contained in it, or is more than 0.7 similar to it. *)
Definition covered (student_topics : list string) (brief_topic : string) : bool :=
  existsb
    (fun student_topic =>
       PyStr.contains brief_topic student_topic
       || PyStr.contains student_topic brief_topic
       || PyNum.Qltb (7 # 10) (similarity (nlp brief_topic) (nlp student_topic)))
    student_topics.

(** What [list(set(l))] is: the elements of [l], each once. *)
Definition set_order_ok : Prop :=
  forall l, NoDup (list_of_set l) /\ forall x, In x (list_of_set l) <-> In x l.

(** The arithmetic mean of a list of numbers. *)
Definition arithmetic_mean (l : list Q) : Q :=
  fold_right Qplus 0 l / PyNum.of_nat (List.length l).

End WithCapabilities.

(** The percentages of the marks called [n] in a list of criterion marks,
    and over all the results. *)
Definition marks_named (n : string) (marks : list AssessmentAI.MarkEntry) : list Q :=
  map AssessmentAI.entry_percentage
    (filter (fun c => String.eqb n (AssessmentAI.me_name c)) marks).

Definition percentages_named (n : string) (results : list AssessmentAI.ResultEntry) : list Q :=
  marks_named n (flat_map AssessmentAI.entry_marks results).

(** The dictionary built so far holds, under each name, the percentages of
    the marks of that name seen so far, and holds no empty list. *)
Definition groups (d : Dict.t (list Q)) (seen : list AssessmentAI.MarkEntry) : Prop :=
  forall n,
    Dict.get n d
    = match marks_named n seen with
      | [] => None
      | l => Some l
      end.

End Spec.

(** ** One dictionary read by another function *)

Module View.

(** The ['url'] of either dictionary [analyze_url_content] returns. *)
Definition analysis_url (a : UrlAnalysis) : string :=
  match a with
  | Analysed r => ua_url r
  | Failed url _ _ => url
  end.

(** A marking result as [generate_analytics] reads it. *)
Definition entry_of_mark (m : CriterionMark) : AssessmentAI.MarkEntry :=
  {| AssessmentAI.me_name := cm_name m;
     AssessmentAI.me_score := inject_Z (cm_score m);
     AssessmentAI.me_max_score := inject_Z (cm_max_score m) |}.

Definition entry_of_result (r : MarkingResult) : AssessmentAI.ResultEntry :=
  {| AssessmentAI.re_percentage := percentage r;
     AssessmentAI.re_grade := Some (grade r);
     AssessmentAI.re_criteria_marks := Some (map entry_of_mark (criteria_marks r));
     AssessmentAI.re_statistics :=
       Some {| AssessmentAI.se_word_count := Some (Z.of_nat (word_count (statistics r)));
               AssessmentAI.se_url_count := Some (Z.of_nat (url_count (statistics r))) |} |}.

(** The result of [generate_analytics] as [generate_recommendations] reads it. *)
Definition view_of_analytics (a : AssessmentAI.AnalyticsResult) : AssessmentAI.AnalyticsView :=
  match a with
  | AssessmentAI.NoData _ =>
      {| AssessmentAI.av_has_error := true;
         AssessmentAI.av_other_keys := false;
         AssessmentAI.av_summary := None;
         AssessmentAI.av_criteria_analysis := None;
         AssessmentAI.av_statistics := None |}
  | AssessmentAI.Report r =>
      {| AssessmentAI.av_has_error := false;
         AssessmentAI.av_other_keys := false;
         AssessmentAI.av_summary :=
           Some {| AssessmentAI.smv_avg_percentage :=
                     Some (AssessmentAI.avg_percentage (AssessmentAI.summary r)) |};
         AssessmentAI.av_criteria_analysis :=
           Some {| AssessmentAI.cav_weaknesses :=
                     Some (AssessmentAI.ca_weaknesses (AssessmentAI.criteria_analysis r));
                   AssessmentAI.cav_strengths :=
                     Some (AssessmentAI.ca_strengths (AssessmentAI.criteria_analysis r));
                   AssessmentAI.cav_averages :=
                     Some (AssessmentAI.averages (AssessmentAI.criteria_analysis r)) |};
         AssessmentAI.av_statistics :=
           Some {| AssessmentAI.stv_word_count :=
                     Some {| AssessmentAI.avv_average :=
                               Some (AssessmentAI.wc_average (AssessmentAI.statistics_word_count r)) |};
                   AssessmentAI.stv_url_usage :=
                     Some {| AssessmentAI.avv_average :=
                               Some (AssessmentAI.statistics_url_usage_average r) |} |} |}
  end.

(** [sum] of a list of integers. *)
Definition total (l : list Z) : Z := fold_right Z.add 0%Z l.

(** Longest first. *)
Definition longest_first (l : list string) : Prop :=
  StronglySorted (fun a b => (String.length b <= String.length a)%nat) l.

Section WithCapabilities.

Context `{Capabilities}.

(** The results of marking each submission of a list, as [generate_analytics]
    reads them. *)
Definition engine_entries (subs : list (string * BriefAnalysis * RubricAnalysis))
  : list AssessmentAI.ResultEntry :=
  map (fun s => entry_of_result
                  (AssessmentAI.mark_student_work (fst (fst s)) (snd (fst s)) (snd s))) subs.

End WithCapabilities.

End View.

(** ** The analytics aggregator in binary64 *)

(** [generate_analytics] once more, every number a binary64 float (an [int]
    below 2^53 is the float of the same value) and every operation the
    correctly rounded one of the machine. *)
Module Binary64.

(** [len(l)] as the divisor of a float. *)
Definition of_nat (n : nat) : float := PrimFloat.of_uint63 (Uint63.of_Z (Z.of_nat n)).

(** [sum(l)]: from 0, one addition after the other, left to right (the
    built-in of CPython before 3.12; later versions compensate the rounding
    of each addition, which changes nothing for lists of one or two numbers
    nor for the lists evaluated below). *)
Definition sum (l : list float) : float := fold_left PrimFloat.add l 0%float.

(** [sum(l) / len(l)] *)
Definition mean (l : list float) : float := (sum l / of_nat (List.length l))%float.

Record MarkEntry : Type := {
  me_name : string;
  me_score : float;
  me_max_score : float
}.

Record StatsEntry : Type := {
  se_word_count : option float;
  se_url_count : option float
}.

Record ResultEntry : Type := {
  re_percentage : float;
  re_grade : option string;
  re_criteria_marks : option (list MarkEntry);
  re_statistics : option StatsEntry
}.

Record Summary : Type := {
  count : nat;
  avg_percentage : float;
  grade_distribution : Dict.t nat
}.

Record CriteriaAnalysis : Type := {
  averages : Dict.t float;
  ca_strengths : list string;
  ca_weaknesses : list string
}.

Record WordCountStats : Type := {
  wc_average : float;
  wc_minimum : float;
  wc_maximum : float
}.

Record Analytics : Type := {
  summary : Summary;
  criteria_analysis : CriteriaAnalysis;
  statistics_word_count : WordCountStats;
  statistics_url_usage_average : float
}.

Inductive AnalyticsResult : Type :=
| NoData (error : string)
| Report (a : Analytics).

Definition entry_marks (r : ResultEntry) : list MarkEntry :=
  match re_criteria_marks r with Some l => l | None => [] end.

(** [(score / max_score) * 100 if max_score > 0 else 0] *)
Definition entry_percentage (c : MarkEntry) : float :=
  if PrimFloat.ltb 0 (me_max_score c)
  then (me_score c / me_max_score c * 100)%float
  else 0%float.

Definition collect_mark (d : Dict.t (list float)) (c : MarkEntry) : Dict.t (list float) :=
  let d1 := if Dict.mem (me_name c) d then d else Dict.set (me_name c) [] d in
  match Dict.get (me_name c) d1 with
  | Some scores => Dict.set (me_name c) (scores ++ [entry_percentage c]) d1
  | None => d1
  end.

Definition collect_result (d : Dict.t (list float)) (r : ResultEntry) : Dict.t (list float) :=
  fold_left collect_mark (entry_marks r) d.

Definition criteria_averages (marking_results : list ResultEntry) : Dict.t float :=
  map (fun '(n, scores) => (n, mean scores))
    (fold_left collect_result marking_results []).

(** [if avg >= 70: strengths.append(name) elif avg <= 50: weaknesses.append(name)] *)
Definition classify (acc : list string * list string) (item : string * float)
  : list string * list string :=
  let '(n, avg) := item in
  if PrimFloat.leb 70 avg then (fst acc ++ [n], snd acc)
  else if PrimFloat.leb avg 50 then (fst acc, snd acc ++ [n])
  else acc.

Definition stat_or_zero (f : StatsEntry -> option float) (r : ResultEntry) : float :=
  match re_statistics r with
  | Some s => match f s with Some n => n | None => 0%float end
  | None => 0%float
  end.

(** [min(l)] and [max(l)]: the first of the smallest, of the largest. *)
Definition list_min (l : list float) : float :=
  match l with
  | [] => 0%float
  | x :: r => fold_left (fun best y => if PrimFloat.ltb y best then y else best) r x
  end.

Definition list_max (l : list float) : float :=
  match l with
  | [] => 0%float
  | x :: r => fold_left (fun best y => if PrimFloat.ltb best y then y else best) r x
  end.

Definition generate_analytics (marking_results : list ResultEntry) : AnalyticsResult :=
  match marking_results with
  | [] => NoData "No marking results provided"
  | _ =>
      let total_percentages := map re_percentage marking_results in
      let grades :=
        map (fun r => match re_grade r with Some g => g | None => "N/A" end) marking_results in
      let avgs := criteria_averages marking_results in
      let sw := fold_left classify avgs ([], []) in
      let word_counts := map (stat_or_zero se_word_count) marking_results in
      let url_counts := map (stat_or_zero se_url_count) marking_results in
      Report
        {| summary :=
             {| count := List.length marking_results;
                avg_percentage := mean total_percentages;
                grade_distribution := fold_left AssessmentAI.count_grade grades [] |};
           criteria_analysis :=
             {| averages := avgs;
                ca_strengths := fst sw;
                ca_weaknesses := snd sw |};
           statistics_word_count :=
             {| wc_average :=
                  match word_counts with [] => 0%float | _ => mean word_counts end;
                wc_minimum := list_min word_counts;
                wc_maximum := list_max word_counts |};
           statistics_url_usage_average :=
             match url_counts with [] => 0%float | _ => mean url_counts end |}
  end.

(** *** The specification's wording, in binary64 *)

(** The percentage of one criterion mark. *)
Definition percentage_of (score full : float) : float :=
  if PrimFloat.ltb 0 full then (score / full * 100)%float else 0%float.

(** The percentages of the marks called [n], in the order of the input. *)
Definition marks_named (n : string) (marks : list MarkEntry) : list float :=
  map (fun c => percentage_of (me_score c) (me_max_score c))
    (filter (fun c => String.eqb n (me_name c)) marks).

Definition percentages_named (n : string) (results : list ResultEntry) : list float :=
  marks_named n (flat_map entry_marks results).



(** The dictionary built so far holds, under each name, the percentages of
    the marks of that name seen so far, and holds no empty list. *)
Definition groups (d : Dict.t (list float)) (seen : list MarkEntry) : Prop :=
  forall n,
    Dict.get n d
    = match marks_named n seen with
      | [] => None
      | l => Some l
      end.

(** Three marks of one criterion, 11 of 12, 11 of 12 and 4 of 15: the mean of
    the three percentages is 70. *)
Definition three_marks : list ResultEntry :=
  [ {| re_percentage := 70%float;
       re_grade := Some "B";
       re_criteria_marks :=
         Some [ {| me_name := "X"; me_score := 11%float; me_max_score := 12%float |};
                {| me_name := "X"; me_score := 11%float; me_max_score := 12%float |};
                {| me_name := "X"; me_score := 4%float; me_max_score := 15%float |} ];
       re_statistics := None |} ].

Definition one_result : ResultEntry :=
  {| re_percentage := 72%float;
     re_grade := Some "B";
     re_criteria_marks :=
       Some [ {| me_name := "Content"; me_score := 9%float; me_max_score := 10%float |} ];
     re_statistics := None |}.

End Binary64.

(** ** A small world to run the code in *)

Module Demo.

(** A tagger that takes every word for a noun and the whole text for one
    noun phrase and one sentence. *)
Definition tagger (text : string) : Doc :=
  let tokens :=
    map (fun w => {| tok_text := w; tok_pos := "NOUN"; tok_is_alpha := true |})
      (PyStr.split_ws text) in
  let whole :=
    match tokens with
    | [] => []
    | t :: _ => [ {| span_text := text; span_root := t; span_label := EmptyString |} ]
    end in
  {| doc_text := text;
     doc_tokens := tokens;
     doc_sents := whole;
     doc_noun_chunks := whole;
     doc_ents := [] |}.

Fixpoint replicate (n : nat) (c : ascii) : string :=
  match n with
  | O => EmptyString
  | S k => String c (replicate k c)
  end.

(** Four pages and an unreachable rest of the network. *)
Definition get (url : string) : result Response :=
  if String.eqb url "https://example.org/page" then
    Ok {| status_code := 200; resp_text := "an example page" |}
  else if String.eqb url "https://example.org/empty" then
    Ok {| status_code := 200; resp_text := EmptyString |}
  else if String.eqb url "https://example.org/long" then
    Ok {| status_code := 200; resp_text := replicate 600 "a" |}
  else if String.eqb url "https://example.org/choices" then
    Ok {| status_code := 300; resp_text := EmptyString |}
  else if String.eqb url "https://example.org/missing" then
    Ok {| status_code := 404; resp_text := EmptyString |}
  else Raise (Exception "connection refused").

(** [Response.raise_for_status] of [requests]: an [HTTPError] for a status
    from 400 to 599, nothing for any other status. *)
Definition http_error (response : Response) : result unit :=
  if ((400 <=? status_code response) && (status_code response <? 600))%Z
  then Raise (Exception "HTTP error")
  else Ok tt.

(** A parser that takes a non-empty body for one paragraph. *)
Definition parse (body : string) : result Soup :=
  Ok {| soup_title := None;
        soup_paragraphs := if PyStr.nonempty body then [body] else [];
        soup_meta_description := None |}.

Definition world : Capabilities := {|
  nlp := tagger;
  similarity := fun _ _ => 0;
  stop_words := ["the"; "a"; "of"];
  list_of_set := nodup string_dec;
  findall_criteria := fun _ => [];
  search_grade := fun _ _ => None;
  finditer_ranges := fun _ => [];
  findall_urls := fun text => filter (prefix "http") (PyStr.split_ws text);
  urlparse := fun url => Ok ("https", url);
  requests_get := get;
  raise_for_status := http_error;
  BeautifulSoup := parse
|}.

(** The same world with given results of the rubric patterns. *)
Definition with_patterns
    (criteria_matches : list (string * Z * string))
    (grades : string -> option (Z * option Z))
    (ranges : list (Z * Z * string)) : Capabilities := {|
  nlp := tagger;
  similarity := fun _ _ => 0;
  stop_words := ["the"; "a"; "of"];
  list_of_set := nodup string_dec;
  findall_criteria := fun _ => criteria_matches;
  search_grade := fun label _ => grades label;
  finditer_ranges := fun _ => ranges;
  findall_urls := fun text => filter (prefix "http") (PyStr.split_ws text);
  urlparse := fun url => Ok ("https", url);
  requests_get := get;
  raise_for_status := http_error;
  BeautifulSoup := parse
|}.

Definition pass_merit : Dict.t (Z * Z) :=
  [ ("Pass", (40, 59)); ("Merit", (60, 69)); ("Distinction", (70, 100)) ]%Z.

Definition rubric (w1 w2 : Z) : RubricAnalysis :=
  {| criteria :=
       Some [ {| name := "Content"; weight := Some w1; description := Some "content";
                 keywords := Some ["essay"; "quality"] |};
              {| name := "Language"; weight := Some w2; description := None;
                 keywords := None |} ];
     grade_boundaries := Some [];
     rubric_full_text := EmptyString |}.

Definition empty_rubric : RubricAnalysis :=
  {| criteria := Some []; grade_boundaries := None; rubric_full_text := EmptyString |}.

Definition brief : BriefAnalysis :=
  {| requirements := []; learning_outcomes := []; submission_details := [];
     key_topics := Some ["essay quality"]; brief_full_text := EmptyString |}.

Definition one_result : AssessmentAI.ResultEntry :=
  {| AssessmentAI.re_percentage := 72;
     AssessmentAI.re_grade := Some "B";
     AssessmentAI.re_criteria_marks :=
       Some [ {| AssessmentAI.me_name := "Content";
                 AssessmentAI.me_score := 9;
                 AssessmentAI.me_max_score := 10 |} ];
     AssessmentAI.re_statistics := None |}.

(** Three marks of one criterion, 11 of 12, 11 of 12 and 4 of 15, in exact
    arithmetic. *)
Definition three_marks : list AssessmentAI.ResultEntry :=
  [ {| AssessmentAI.re_percentage := 70;
       AssessmentAI.re_grade := Some "B";
       AssessmentAI.re_criteria_marks :=
         Some [ {| AssessmentAI.me_name := "X";
                   AssessmentAI.me_score := 11; AssessmentAI.me_max_score := 12 |};
                {| AssessmentAI.me_name := "X";
                   AssessmentAI.me_score := 11; AssessmentAI.me_max_score := 12 |};
                {| AssessmentAI.me_name := "X";
                   AssessmentAI.me_score := 4; AssessmentAI.me_max_score := 15 |} ];
       AssessmentAI.re_statistics := None |} ].

End Demo.

(** * Properties *)

(** ** The built-ins on small inputs *)

Example split_ws_example : PyStr.split_ws "  two words " = ["two"; "words"].
Proof. reflexivity. Qed.

Example split_example :
  PyStr.split "ab" "xabyabab" = ["x"; "y"; EmptyString; EmptyString].
Proof. reflexivity. Qed.

Example strip_example :
  PyStr.strip "  a b  " = "a b" /\ PyStr.rstrip ":)" "Style (20):" = "Style (20".
Proof. split; reflexivity. Qed.

Example lower_example : PyStr.lower "Content & Style" = "content & style".
Proof. reflexivity. Qed.

Example round_example :
  PyNum.round (45 # 10) = 4%Z /\ PyNum.round (35 # 10) = 4%Z
  /\ PyNum.round (9 # 1) = 9%Z /\ PyNum.round (5 # 1) = 5%Z.
Proof. repeat split; reflexivity. Qed.

Example header_without_name_example :
  criteria (AssessmentAI.process_rubric (H := Demo.world) ":")
  = Some AssessmentAI.default_criteria.
Proof. reflexivity. Qed.

(** ** Numbers *)

Section Numbers.

Local Open Scope Q_scope.

Lemma Qltb_true (x y : Q) : PyNum.Qltb x y = true <-> x < y.
Proof.
  unfold PyNum.Qltb. rewrite negb_true_iff.
  split; intro E.
  - apply Qnot_le_lt. intro L. apply Qle_bool_iff in L. congruence.
  - destruct (Qle_bool y x) eqn:B; trivial.
    apply Qle_bool_iff in B. exfalso. apply (Qlt_not_le _ _ E B).
Qed.

Lemma Qltb_false (x y : Q) : PyNum.Qltb x y = false <-> y <= x.
Proof.
  unfold PyNum.Qltb. rewrite negb_false_iff. apply Qle_bool_iff.
Qed.

Lemma Qle_bool_false (x y : Q) : Qle_bool x y = false <-> y < x.
Proof.
  rewrite <- Qltb_true. unfold PyNum.Qltb.
  destruct (Qle_bool x y); simpl; intuition congruence.
Qed.

Lemma round_between (a b : Z) (x : Q) :
  inject_Z a <= x -> x <= inject_Z b -> (a <= PyNum.round x <= b)%Z.
Proof.
  intros La Lb.
  pose proof (Qfloor_le x) as Fl.
  pose proof (Qlt_floor x) as Fu.
  assert (Ha : (a <= Qfloor x)%Z).
  { assert (L : inject_Z a < inject_Z (Qfloor x + 1)) by (eapply Qle_lt_trans; eauto).
    rewrite <- Zlt_Qlt in L. lia. }
  assert (Hb : (Qfloor x <= b)%Z).
  { rewrite Zle_Qle. eapply Qle_trans; eauto. }
  assert (Hstrict : 0 < x - inject_Z (Qfloor x) -> (Qfloor x + 1 <= b)%Z).
  { intro P.
    assert (L : inject_Z (Qfloor x) < inject_Z b).
    { eapply Qlt_le_trans; [|exact Lb]. lra. }
    rewrite <- Zlt_Qlt in L. lia. }
  unfold PyNum.round.
  destruct (x - inject_Z (Qfloor x) ?= 1 # 2) eqn:C.
  - apply Qeq_alt in C.
    destruct (Z.even (Qfloor x)); [lia|].
    split; [lia|]. apply Hstrict. rewrite C. reflexivity.
  - lia.
  - apply Qgt_alt in C.
    split; [lia|]. apply Hstrict. eapply Qlt_trans; [|exact C]. reflexivity.
Qed.

Lemma min_max_clamp (x : Q) :
  PyNum.min (9 # 10) (PyNum.max (3 # 10) x) == Spec.clamp (3 # 10) (9 # 10) x.
Proof.
  unfold PyNum.min, PyNum.max, Spec.clamp.
  destruct (PyNum.Qltb (3 # 10) x) eqn:A; destruct (PyNum.Qltb x (3 # 10)) eqn:B;
    try apply Qltb_true in A; try apply Qltb_false in A;
    try apply Qltb_true in B; try apply Qltb_false in B.
  - lra.
  - destruct (PyNum.Qltb x (9 # 10)) eqn:D; destruct (PyNum.Qltb (9 # 10) x) eqn:E;
      try apply Qltb_true in D; try apply Qltb_false in D;
      try apply Qltb_true in E; try apply Qltb_false in E; lra.
  - destruct (PyNum.Qltb (3 # 10) (9 # 10)) eqn:D; [reflexivity|].
    discriminate D.
  - destruct (PyNum.Qltb (3 # 10) (9 # 10)) eqn:D; [|discriminate D].
    destruct (PyNum.Qltb (9 # 10) x) eqn:E;
      try apply Qltb_true in E; lra.
Qed.

Lemma min_max_bounds (x : Q) :
  3 # 10 <= PyNum.min (9 # 10) (PyNum.max (3 # 10) x) <= 9 # 10.
Proof.
  unfold PyNum.min, PyNum.max.
  destruct (PyNum.Qltb (3 # 10) x) eqn:A;
    try apply Qltb_true in A; try apply Qltb_false in A.
  - destruct (PyNum.Qltb x (9 # 10)) eqn:D;
      try apply Qltb_true in D; try apply Qltb_false in D; lra.
  - destruct (PyNum.Qltb (3 # 10) (9 # 10)) eqn:D; [lra|discriminate D].
Qed.

End Numbers.

(** Case analysis on every comparison of the goal. *)
Ltac split_comparisons :=
  repeat match goal with
    | |- context [Qle_bool ?a ?b] =>
        let E := fresh "E" in
        destruct (Qle_bool a b) eqn:E;
        [apply Qle_bool_iff in E | apply Qle_bool_false in E];
        cbn [andb]
    end.

(** ** Marking engine *)

Section MarkingEngine.

Context `{Capabilities}.

Import AssessmentAI.

Local Open Scope Q_scope.

(** *** The loop over the criteria *)

Lemma loop_marks (text : string) (doc : Doc) (cs : list Criterion) (st : MarkState) :
  ms_criteria_marks (fold_left (mark_criterion text doc) cs st)
  = ms_criteria_marks st ++ map (criterion_mark text doc) cs.
Proof.
  revert st. induction cs as [|c cs IH]; intro st; simpl.
  - now rewrite app_nil_r.
  - rewrite IH. simpl. now rewrite <- app_assoc.
Qed.

Lemma loop_max_score (text : string) (doc : Doc) (cs : list Criterion) (st : MarkState) :
  ms_max_score (fold_left (mark_criterion text doc) cs st)
  = (ms_max_score st + 10 * Z.of_nat (List.length cs))%Z.
Proof.
  revert st. induction cs as [|c cs IH]; intro st.
  - simpl. lia.
  - cbn [fold_left]. rewrite IH. cbn [mark_criterion criterion_mark ms_max_score cm_max_score List.length].
    lia.
Qed.

Lemma relevance_bounds (doc : Doc) (kws : list string) :
  3 # 10 <= _calculate_criterion_relevance doc kws <= 9 # 10.
Proof.
  unfold _calculate_criterion_relevance.
  destruct kws as [|k kws].
  - split; discriminate.
  - apply min_max_bounds.
Qed.

Lemma score_bounds (doc : Doc) (c : Criterion) : (3 <= criterion_score doc c <= 9)%Z.
Proof.
  unfold criterion_score.
  destruct (relevance_bounds doc (criterion_keywords_of c)) as [L U].
  apply round_between; unfold inject_Z; lra.
Qed.

Lemma loop_total_score (text : string) (doc : Doc) (cs : list Criterion) (st : MarkState) :
  (ms_total_score st + 3 * Z.of_nat (List.length cs)
   <= ms_total_score (fold_left (mark_criterion text doc) cs st)
   <= ms_total_score st + 9 * Z.of_nat (List.length cs))%Z.
Proof.
  revert st. induction cs as [|c cs IH]; intro st.
  - simpl. lia.
  - cbn [fold_left]. specialize (IH (mark_criterion text doc st c)).
    cbn [mark_criterion criterion_mark ms_total_score cm_score] in IH.
    pose proof (score_bounds doc c). cbn [List.length]. lia.
Qed.

Lemma loop_ignores_weight (text : string) (doc : Doc) (cs : list Criterion) (st : MarkState) :
  fold_left (mark_criterion text doc) (map Spec.erase_weight cs) st
  = fold_left (mark_criterion text doc) cs st.
Proof.
  revert st. induction cs as [|c cs IH]; intro st; simpl; [reflexivity|].
  rewrite IH. reflexivity.
Qed.

Lemma rubric_criteria_erase (r : RubricAnalysis) :
  rubric_criteria (Spec.erase_weights r) = map Spec.erase_weight (rubric_criteria r).
Proof.
  unfold rubric_criteria, Spec.erase_weights. simpl.
  destruct (criteria r); reflexivity.
Qed.

Lemma mark_erase_weights (text : string) (brief : BriefAnalysis) (r : RubricAnalysis) :
  mark_student_work text brief (Spec.erase_weights r) = mark_student_work text brief r.
Proof.
  unfold mark_student_work.
  rewrite rubric_criteria_erase, loop_ignores_weight. reflexivity.
Qed.

Lemma marks_of_result (text : string) (brief : BriefAnalysis) (r : RubricAnalysis) :
  criteria_marks (mark_student_work text brief r)
  = map (criterion_mark text (nlp text)) (rubric_criteria r).
Proof.
  unfold mark_student_work. cbn [criteria_marks]. now rewrite loop_marks.
Qed.

Lemma max_score_of_result (text : string) (brief : BriefAnalysis) (r : RubricAnalysis) :
  max_score (mark_student_work text brief r)
  = (10 * Z.of_nat (List.length (rubric_criteria r)))%Z.
Proof.
  unfold mark_student_work. cbn [max_score]. now rewrite loop_max_score.
Qed.

(** *** Keyword counting *)

Lemma count_keywords_from (text : string) (kws : list string) (n : nat) :
  fold_left
    (fun keyword_count keyword =>
       if PyStr.contains (PyStr.lower keyword) text then S keyword_count else keyword_count)
    kws n
  = (n + List.length (filter (fun k => PyStr.contains (PyStr.lower k) text) kws))%nat.
Proof.
  revert n. induction kws as [|k kws IH]; intro n; simpl.
  - lia.
  - rewrite IH. destruct (PyStr.contains (PyStr.lower k) text); simpl; lia.
Qed.

Lemma count_keywords_filter (text : string) (kws : list string) :
  count_keywords (PyStr.lower text) kws = List.length (filter (Spec.present_in text) kws).
Proof.
  unfold count_keywords. rewrite count_keywords_from. reflexivity.
Qed.

Lemma relevance_refines (doc : Doc) (kws : list string) :
  kws <> [] ->
  _calculate_criterion_relevance doc kws
  == Spec.clamp (3 # 10) (9 # 10) (Spec.fraction_present (doc_text doc) kws).
Proof.
  intro NE. unfold _calculate_criterion_relevance, Spec.fraction_present.
  destruct kws as [|k kws]; [congruence|].
  rewrite count_keywords_filter. apply min_max_clamp.
Qed.

Lemma percentage_between (total full n : Z) :
  (0 < n)%Z -> full = (10 * n)%Z -> (3 * n <= total <= 9 * n)%Z ->
  30 <= inject_Z total / inject_Z full * 100 <= 90.
Proof.
  intros Hn Hfull Ht.
  destruct full as [|p|p]; try lia.
  unfold Qle, Qdiv, Qmult, Qinv, inject_Z; simpl.
  rewrite !Z.mul_1_r, !Pos.mul_1_r.
  split; lia.
Qed.

(** *** The claims about [mark_student_work] *)

(** C1. Two rubric analyses that are identical except for the weights of
    their criteria give identical marking results for every submission and
    brief: the declared weights do not enter the scoring arithmetic.  Every
    criterion mark has the fixed [max_score] 10, and the [max_score] of the
    result is 10 times the number of criteria. *)
Theorem weights_are_not_applied
    (text : string) (brief : BriefAnalysis) (r1 r2 : RubricAnalysis) :
  Spec.erase_weights r1 = Spec.erase_weights r2 ->
  mark_student_work text brief r1 = mark_student_work text brief r2
  /\ Forall (fun m => cm_max_score m = 10%Z)
       (criteria_marks (mark_student_work text brief r1))
  /\ max_score (mark_student_work text brief r1)
     = (10 * Z.of_nat (List.length (rubric_criteria r1)))%Z.
Proof.
  intro E. split; [|split].
  - rewrite <- (mark_erase_weights text brief r1), <- (mark_erase_weights text brief r2).
    now rewrite E.
  - rewrite marks_of_result. apply Forall_forall. intros m Hm.
    apply in_map_iff in Hm. destruct Hm as [c [<- _]]. reflexivity.
  - apply max_score_of_result.
Qed.

(** C2. The relevance of a criterion with keywords is the fraction of its
    keywords that occur, lower-cased, as substrings of the lower-cased text
    of the submission, clamped to [0.3, 0.9]; without keywords it is 0.5;
    and the score of the criterion is [round(relevance * 10)] against a
    [max_score] of 10. *)
Theorem criterion_score_is_rounded_relevance
    (text : string) (brief : BriefAnalysis) (r : RubricAnalysis) :
  Forall2
    (fun c m =>
       let kws := criterion_keywords_of c in
       let rel := _calculate_criterion_relevance (nlp text) kws in
       match kws with
       | [] => rel = 1 # 2
       | _ => rel == Spec.clamp (3 # 10) (9 # 10)
                       (Spec.fraction_present (doc_text (nlp text)) kws)
       end
       /\ cm_name m = name c
       /\ cm_score m = PyNum.round (rel * 10)
       /\ cm_max_score m = 10%Z)
    (rubric_criteria r)
    (criteria_marks (mark_student_work text brief r)).
Proof.
  rewrite marks_of_result.
  induction (rubric_criteria r) as [|c cs IH]; simpl; constructor; [|exact IH].
  repeat split.
  destruct (criterion_keywords_of c) as [|k kws] eqn:E; [reflexivity|].
  apply relevance_refines. discriminate.
Qed.

(** C6. With zero criteria in the rubric analysis, [mark_student_work]
    returns [total_score] 0, [max_score] 0 and [percentage] exactly 0: the
    division is guarded and the function returns a result. *)
Theorem no_criteria_gives_zero_percentage
    (text : string) (brief : BriefAnalysis) (r : RubricAnalysis) :
  rubric_criteria r = [] ->
  total_score (mark_student_work text brief r) = 0%Z
  /\ max_score (mark_student_work text brief r) = 0%Z
  /\ percentage (mark_student_work text brief r) = 0.
Proof.
  intro E. unfold mark_student_work. rewrite E. simpl. repeat split.
Qed.

(** C10. Against a rubric analysis with at least one criterion, every
    criterion score lies between 3 and 9 and the overall percentage lies
    between 30 and 90. *)
Theorem marks_stay_between_30_and_90
    (text : string) (brief : BriefAnalysis) (r : RubricAnalysis) :
  rubric_criteria r <> [] ->
  Forall (fun m => (3 <= cm_score m <= 9)%Z)
    (criteria_marks (mark_student_work text brief r))
  /\ 30 <= percentage (mark_student_work text brief r) <= 90.
Proof.
  intro NE. split.
  - rewrite marks_of_result. apply Forall_forall. intros m Hm.
    apply in_map_iff in Hm. destruct Hm as [c [<- _]]. apply score_bounds.
  - unfold mark_student_work. cbn [percentage].
    set (st := fold_left _ _ _).
    assert (Hn : (0 < Z.of_nat (List.length (rubric_criteria r)))%Z).
    { destruct (rubric_criteria r); [congruence|simpl; lia]. }
    assert (Hmax : ms_max_score st = (10 * Z.of_nat (List.length (rubric_criteria r)))%Z).
    { subst st. rewrite loop_max_score. cbn [ms_max_score]. lia. }
    assert (Htot : (3 * Z.of_nat (List.length (rubric_criteria r)) <= ms_total_score st
                    <= 9 * Z.of_nat (List.length (rubric_criteria r)))%Z).
    { subst st. pose proof (loop_total_score text (nlp text) (rubric_criteria r)
        {| ms_criteria_marks := []; ms_total_score := 0; ms_max_score := 0 |}) as B.
      cbn [ms_total_score] in B. lia. }
    assert (Hpos : (0 <? ms_max_score st)%Z = true) by (apply Z.ltb_lt; lia).
    rewrite Hpos.
    apply (percentage_between _ _ _ Hn Hmax Htot).
Qed.

(** *** Grade determination *)

(** C3. With an empty map of grade boundaries, a percentage between 0 and
    100 (an integer or not) is graded by the fixed banding: A from 80, B
    from 70, C from 60, D from 50, else F.  In particular 85 is graded A
    and 55 is graded D. *)
Theorem empty_boundaries_give_fixed_bands (pct : Q) :
  0 <= pct <= 100 ->
  _determine_grade pct [] = Spec.fixed_band pct
  /\ _determine_grade 85 [] = "A"
  /\ _determine_grade 55 [] = "D".
Proof.
  intros [L U]. split; [|split; reflexivity].
  unfold _determine_grade, Spec.fixed_band, default_boundaries, first_band, inject_Z.
  split_comparisons; try reflexivity; exfalso; lra.
Qed.

(** *** Topic coverage *)

Lemma topic_is_covered_exists (brief_topic : string) (student_topics : list string) :
  topic_is_covered brief_topic student_topics = Spec.covered student_topics brief_topic.
Proof.
  induction student_topics as [|s rest IH]; simpl; [reflexivity|].
  rewrite IH. unfold similar_topics.
  destruct (PyStr.contains brief_topic s || PyStr.contains s brief_topic); simpl; reflexivity.
Qed.

Lemma count_covered_from (student_topics brief_topics : list string) (n : nat) :
  fold_left
    (fun covered_topics brief_topic =>
       if topic_is_covered brief_topic student_topics
       then S covered_topics else covered_topics)
    brief_topics n
  = (n + List.length (filter (Spec.covered student_topics) brief_topics))%nat.
Proof.
  revert n. induction brief_topics as [|b rest IH]; intro n; simpl.
  - lia.
  - rewrite IH, topic_is_covered_exists.
    destruct (Spec.covered student_topics b); simpl; lia.
Qed.

Lemma fraction_between_0_and_1 (k n : nat) :
  (k <= n)%nat -> (0 < n)%nat -> 0 <= PyNum.of_nat k / PyNum.of_nat n <= 1.
Proof.
  intros Hk Hn. unfold PyNum.of_nat.
  assert (Hk' : (0 <= Z.of_nat k <= Z.of_nat n)%Z) by lia.
  assert (Hn' : (0 < Z.of_nat n)%Z) by lia.
  destruct (Z.of_nat n) as [|p|p]; try lia.
  unfold Qle, Qdiv, Qmult, Qinv, inject_Z; simpl.
  rewrite !Z.mul_1_r. lia.
Qed.

(** C4. The topic coverage is 1 when the brief has no key topic; it is 0
    when the brief has key topics and the student has none (whatever the
    similarity is); with key topics it is the number of covered brief
    topics, each counted once, divided by the number of brief topics; and
    it always lies between 0 and 1. *)
Theorem topic_coverage_is_covered_fraction (student_topics brief_topics : list string) :
  (brief_topics = [] -> _calculate_topic_coverage student_topics brief_topics = 1)
  /\ (brief_topics <> [] -> student_topics = [] ->
      _calculate_topic_coverage student_topics brief_topics == 0)
  /\ (brief_topics <> [] ->
      _calculate_topic_coverage student_topics brief_topics
      == PyNum.of_nat (List.length (filter (Spec.covered student_topics) brief_topics))
         / PyNum.of_nat (List.length brief_topics))
  /\ 0 <= _calculate_topic_coverage student_topics brief_topics <= 1.
Proof.
  assert (F : brief_topics <> [] ->
              _calculate_topic_coverage student_topics brief_topics
              = PyNum.of_nat (List.length (filter (Spec.covered student_topics) brief_topics))
                / PyNum.of_nat (List.length brief_topics)).
  { intro NE. unfold _calculate_topic_coverage, count_covered.
    destruct brief_topics as [|b rest]; [congruence|].
    rewrite count_covered_from. reflexivity. }
  repeat split.
  - intros ->. reflexivity.
  - intros NE ->. rewrite (F NE).
    assert (Z : filter (Spec.covered []) brief_topics = []).
    { clear. induction brief_topics; simpl; auto. }
    rewrite Z. simpl. unfold Qdiv. rewrite Qmult_0_l. reflexivity.
  - intro NE. rewrite (F NE). reflexivity.
  - destruct brief_topics as [|b rest] eqn:E; [discriminate|].
    rewrite F by discriminate.
    apply fraction_between_0_and_1; [apply filter_length_le|simpl; lia].
  - destruct brief_topics as [|b rest] eqn:E; [discriminate|].
    rewrite F by discriminate.
    apply fraction_between_0_and_1; [apply filter_length_le|simpl; lia].
Qed.

End MarkingEngine.

Lemma weights_are_not_applied_witness :
  Spec.erase_weights (Demo.rubric 40 60) = Spec.erase_weights (Demo.rubric 10 90)
  /\ AssessmentAI.mark_student_work (H := Demo.world) "An essay of quality" Demo.brief (Demo.rubric 40 60)
     = AssessmentAI.mark_student_work (H := Demo.world) "An essay of quality" Demo.brief (Demo.rubric 10 90).
Proof.
  split; [reflexivity|].
  apply (weights_are_not_applied (H := Demo.world) "An essay of quality" Demo.brief
           (Demo.rubric 40 60) (Demo.rubric 10 90)).
  reflexivity.
Defined.

Lemma no_criteria_gives_zero_percentage_witness :
  AssessmentAI.rubric_criteria Demo.empty_rubric = []
  /\ percentage (AssessmentAI.mark_student_work (H := Demo.world) "An essay" Demo.brief Demo.empty_rubric) = 0%Q.
Proof.
  split; [reflexivity|].
  apply (no_criteria_gives_zero_percentage (H := Demo.world) "An essay" Demo.brief Demo.empty_rubric).
  reflexivity.
Defined.

Lemma marks_stay_between_30_and_90_witness :
  AssessmentAI.rubric_criteria (Demo.rubric 40 60) <> []
  /\ (30 <= percentage (AssessmentAI.mark_student_work (H := Demo.world) "An essay" Demo.brief (Demo.rubric 40 60)) <= 90)%Q.
Proof.
  split; [discriminate|].
  apply (marks_stay_between_30_and_90 (H := Demo.world) "An essay" Demo.brief (Demo.rubric 40 60)).
  discriminate.
Defined.

Lemma empty_boundaries_give_fixed_bands_witness :
  (0 <= 159 # 2 <= 100)%Q
  /\ AssessmentAI._determine_grade (159 # 2) [] = "B".
Proof.
  assert (R : (0 <= 159 # 2 <= 100)%Q) by (split; discriminate).
  split; [exact R|].
  exact (proj1 (empty_boundaries_give_fixed_bands (159 # 2) R)).
Defined.

Lemma topic_coverage_is_covered_fraction_witness :
  ["essay quality"] <> []
  /\ (AssessmentAI._calculate_topic_coverage (H := Demo.world) [] ["essay quality"] == 0)%Q.
Proof.
  assert (NE : ["essay quality"] <> []) by discriminate.
  split; [exact NE|].
  exact (proj1 (proj2 (topic_coverage_is_covered_fraction (H := Demo.world) [] ["essay quality"]))
           NE eq_refl).
Defined.

(** ** Dictionaries *)

Section DictFacts.

Context {V : Type}.

Lemma get_set_same (k : string) (v : V) (d : Dict.t V) :
  Dict.get k (Dict.set k v d) = Some v.
Proof.
  induction d as [|[k' v'] d IH]; simpl.
  - now rewrite String.eqb_refl.
  - destruct (String.eqb k k') eqn:E; simpl; rewrite E; [reflexivity|exact IH].
Qed.

Lemma get_set_other (k k' : string) (v : V) (d : Dict.t V) :
  k <> k' -> Dict.get k (Dict.set k' v d) = Dict.get k d.
Proof.
  intro NE. induction d as [|[k0 v0] d IH]; simpl.
  - apply String.eqb_neq in NE. now rewrite NE.
  - destruct (String.eqb k' k0) eqn:E; simpl.
    + apply String.eqb_eq in E. subst k0.
      apply String.eqb_neq in NE. now rewrite NE.
    + now rewrite IH.
Qed.

Lemma get_in (k : string) (v : V) (d : Dict.t V) :
  Dict.get k d = Some v -> In (k, v) d.
Proof.
  induction d as [|[k' v'] d IH]; simpl; [discriminate|].
  destruct (String.eqb k k') eqn:E.
  - apply String.eqb_eq in E. intros [= ->]. left. now subst.
  - intro G. right. auto.
Qed.

Lemma in_get (k : string) (v : V) (d : Dict.t V) :
  NoDup (Dict.keys d) -> In (k, v) d -> Dict.get k d = Some v.
Proof.
  induction d as [|[k' v'] d IH]; simpl; [contradiction|].
  intros ND [E|I].
  - injection E as -> ->. now rewrite String.eqb_refl.
  - inversion ND as [|? ? NI ND']; subst.
    destruct (String.eqb k k') eqn:E.
    + apply String.eqb_eq in E. subst k'. exfalso. apply NI.
      unfold Dict.keys. apply in_map_iff. now exists (k, v).
    + auto.
Qed.

Lemma keys_set (k : string) (v : V) (d : Dict.t V) :
  Dict.keys (Dict.set k v d)
  = if Dict.mem k d then Dict.keys d else Dict.keys d ++ [k].
Proof.
  unfold Dict.mem, Dict.keys. induction d as [|[k' v'] d IH]; simpl; [reflexivity|].
  destruct (String.eqb k k') eqn:E; simpl; [reflexivity|].
  rewrite IH. destruct (Dict.get k d); reflexivity.
Qed.

Lemma mem_keys (k : string) (d : Dict.t V) :
  Dict.mem k d = false -> ~ In k (Dict.keys d).
Proof.
  unfold Dict.mem. induction d as [|[k' v'] d IH]; simpl; [tauto|].
  destruct (String.eqb k k') eqn:E; [discriminate|].
  apply String.eqb_neq in E. intros G [I|I]; [congruence|]. now apply IH.
Qed.

Lemma nodup_set (k : string) (v : V) (d : Dict.t V) :
  NoDup (Dict.keys d) -> NoDup (Dict.keys (Dict.set k v d)).
Proof.
  intro ND. rewrite keys_set.
  destruct (Dict.mem k d) eqn:M; [exact ND|].
  apply NoDup_app; [exact ND|repeat constructor; simpl; tauto|].
  intros x Ix [<-|[]]. now apply (mem_keys _ _ M).
Qed.

End DictFacts.

(** ** Analytics aggregator *)

Section AnalyticsAggregator.

Import AssessmentAI.

Local Open Scope Q_scope.

Lemma sum_from (l : list Q) (a : Q) :
  fold_left Qplus l a == a + fold_right Qplus 0 l.
Proof.
  revert a. induction l as [|x l IH]; intro a; simpl.
  - ring.
  - rewrite IH. ring.
Qed.

Lemma mean_is_arithmetic_mean (l : list Q) : mean l == Spec.arithmetic_mean l.
Proof.
  unfold mean, Spec.arithmetic_mean, PyNum.sum.
  rewrite sum_from. unfold Qdiv. ring.
Qed.

(** *** Grouping the percentages by criterion name *)

Lemma marks_named_app (n : string) (l1 l2 : list MarkEntry) :
  Spec.marks_named n (l1 ++ l2) = Spec.marks_named n l1 ++ Spec.marks_named n l2.
Proof.
  unfold Spec.marks_named. now rewrite filter_app, map_app.
Qed.

Lemma collect_mark_groups (d : Dict.t (list Q)) (seen : list MarkEntry) (c : MarkEntry) :
  Spec.groups d seen -> Spec.groups (collect_mark d c) (seen ++ [c]).
Proof.
  intros G n. rewrite marks_named_app.
  unfold collect_mark, Dict.mem.
  destruct (String.eqb_spec n (me_name c)) as [->|NE].
  - pose proof (G (me_name c)) as Gc.
    assert (S1 : Spec.marks_named (me_name c) [c] = [entry_percentage c]).
    { unfold Spec.marks_named. simpl. now rewrite String.eqb_refl. }
    rewrite S1.
    destruct (Dict.get (me_name c) d) as [scores|] eqn:E.
    + rewrite E, get_set_same.
      destruct (Spec.marks_named (me_name c) seen); [discriminate|].
      injection Gc as ->. reflexivity.
    + rewrite get_set_same, get_set_same.
      destruct (Spec.marks_named (me_name c) seen); [reflexivity|discriminate].
  - assert (S0 : Spec.marks_named n [c] = []).
    { unfold Spec.marks_named. simpl.
      apply String.eqb_neq in NE. now rewrite NE. }
    rewrite S0, app_nil_r, <- (G n).
    destruct (Dict.get (me_name c) d) as [scores|] eqn:E.
    + rewrite E. now apply get_set_other.
    + rewrite get_set_same. rewrite !get_set_other by assumption. reflexivity.
Qed.

Lemma collect_marks_groups (marks seen : list MarkEntry) (d : Dict.t (list Q)) :
  Spec.groups d seen -> Spec.groups (fold_left collect_mark marks d) (seen ++ marks).
Proof.
  revert seen d. induction marks as [|c marks IH]; intros seen d G; simpl.
  - now rewrite app_nil_r.
  - replace (seen ++ c :: marks) with ((seen ++ [c]) ++ marks)
      by (now rewrite <- app_assoc).
    apply IH. now apply collect_mark_groups.
Qed.

Lemma collect_results_flat (rs : list ResultEntry) (d : Dict.t (list Q)) :
  fold_left collect_result rs d = fold_left collect_mark (flat_map entry_marks rs) d.
Proof.
  revert d. induction rs as [|r rs IH]; intro d; simpl; [reflexivity|].
  rewrite IH. unfold collect_result. now rewrite fold_left_app.
Qed.

Lemma collected_groups (rs : list ResultEntry) :
  Spec.groups (fold_left collect_result rs []) (flat_map entry_marks rs).
Proof.
  rewrite collect_results_flat.
  apply (collect_marks_groups (flat_map entry_marks rs) [] []).
  intro n. reflexivity.
Qed.

Lemma collect_mark_nodup (d : Dict.t (list Q)) (c : MarkEntry) :
  NoDup (Dict.keys d) -> NoDup (Dict.keys (collect_mark d c)).
Proof.
  intro ND. unfold collect_mark.
  assert (ND1 : NoDup (Dict.keys (if Dict.mem (me_name c) d then d
                                  else Dict.set (me_name c) [] d))).
  { destruct (Dict.mem (me_name c) d); [exact ND|now apply nodup_set]. }
  destruct (Dict.get (me_name c) _); [now apply nodup_set|exact ND1].
Qed.

Lemma collected_nodup (rs : list ResultEntry) :
  NoDup (Dict.keys (fold_left collect_result rs [])).
Proof.
  rewrite collect_results_flat.
  assert (G : forall marks d, NoDup (Dict.keys d) ->
                              NoDup (Dict.keys (fold_left collect_mark marks d))).
  { induction marks as [|c marks IH]; intros d ND; simpl; [exact ND|].
    apply IH. now apply collect_mark_nodup. }
  apply G. constructor.
Qed.

Lemma get_map_values {A B : Type} (f : A -> B) (k : string) (d : Dict.t A) :
  Dict.get k (map (fun '(n, x) => (n, f x)) d) = option_map f (Dict.get k d).
Proof.
  induction d as [|[k' v] d IH]; simpl; [reflexivity|].
  destruct (String.eqb k k'); [reflexivity|exact IH].
Qed.

Lemma keys_map_values {A B : Type} (f : A -> B) (d : Dict.t A) :
  Dict.keys (map (fun '(n, x) => (n, f x)) d) = Dict.keys d.
Proof.
  unfold Dict.keys. rewrite map_map. apply map_ext. now intros [n x].
Qed.

Lemma averages_by_name (rs : list ResultEntry) (n : string) :
  Dict.get n (criteria_averages rs)
  = match Spec.percentages_named n rs with
    | [] => None
    | l => Some (mean l)
    end.
Proof.
  unfold criteria_averages. rewrite get_map_values.
  rewrite (collected_groups rs n). unfold Spec.percentages_named.
  destruct (Spec.marks_named n (flat_map entry_marks rs)); reflexivity.
Qed.

(** *** Strengths *)

Lemma classify_strengths (items : Dict.t Q) (acc : list string * list string) :
  fst (fold_left classify items acc)
  = fst acc ++ map fst (filter (fun item => Qle_bool 70 (snd item)) items).
Proof.
  revert acc. induction items as [|[n avg] items IH]; intro acc; simpl.
  - now rewrite app_nil_r.
  - rewrite IH. destruct (Qle_bool 70 avg); simpl.
    + now rewrite <- app_assoc.
    + destruct (Qle_bool avg 50); reflexivity.
Qed.

Lemma strengths_by_average (rs : list ResultEntry) (n : string) :
  In n (fst (fold_left classify (criteria_averages rs) ([], [])))
  <-> exists avg, Dict.get n (criteria_averages rs) = Some avg /\ 70 <= avg.
Proof.
  rewrite classify_strengths. simpl fst. rewrite app_nil_l.
  assert (ND : NoDup (Dict.keys (criteria_averages rs))).
  { unfold criteria_averages. rewrite keys_map_values. apply collected_nodup. }
  rewrite in_map_iff. split.
  - intros [[k avg] [E I]]. simpl in E. subst k.
    apply filter_In in I. destruct I as [I L]. simpl in L.
    exists avg. split; [now apply in_get|now apply Qle_bool_iff].
  - intros [avg [G L]]. exists (n, avg). split; [reflexivity|].
    apply filter_In. split; [now apply get_in|]. simpl. now apply Qle_bool_iff.
Qed.

End AnalyticsAggregator.

(** ** Rubric parser *)

Section RubricParser.

Context `{Capabilities}.

Import AssessmentAI.

(** C7. When neither the weighted-pattern pass nor the paragraph pass
    extracts a criterion, the criteria of the parsed rubric are the four
    default ones: Content 40, Structure 30, Research 20, Language 10.  The
    criteria of a parsed rubric are never empty. *)
Theorem nothing_parsed_gives_default_criteria (rubric_text : string) :
  weighted_pattern_pass rubric_text = [] ->
  paragraph_heuristic_pass rubric_text = [] ->
  criteria (process_rubric rubric_text) = Some default_criteria
  /\ map (fun c => (name c, weight c)) default_criteria
     = [ ("Content", Some 40%Z); ("Structure", Some 30%Z);
         ("Research", Some 20%Z); ("Language", Some 10%Z) ]
  /\ forall any_text, rubric_criteria (process_rubric any_text) <> [].
Proof.
  intros P1 P2. split; [|split].
  - unfold process_rubric. rewrite P1, P2. reflexivity.
  - reflexivity.
  - intro t. unfold process_rubric, rubric_criteria. cbn [criteria].
    destruct (weighted_pattern_pass t); [|discriminate].
    destruct (paragraph_heuristic_pass t); discriminate.
Qed.

End RubricParser.

Lemma nothing_parsed_gives_default_criteria_witness :
  AssessmentAI.weighted_pattern_pass (H := Demo.world) "Marked on merit." = []
  /\ AssessmentAI.paragraph_heuristic_pass (H := Demo.world) "Marked on merit." = []
  /\ criteria (AssessmentAI.process_rubric (H := Demo.world) "Marked on merit.")
     = Some AssessmentAI.default_criteria.
Proof.
  split; [reflexivity|split; [reflexivity|]].
  apply (nothing_parsed_gives_default_criteria (H := Demo.world) "Marked on merit.");
    reflexivity.
Defined.

(** ** Reference resolver *)

Section ReferenceResolver.

Context `{Capabilities}.

Import AssessmentAI.

Lemma length_append (s1 s2 : string) :
  String.length (s1 ++ s2) = (String.length s1 + String.length s2)%nat.
Proof.
  induction s1 as [|c s1 IH]; simpl; [reflexivity|now rewrite IH].
Qed.

Lemma length_take (n : nat) (s : string) :
  String.length (PyStr.take n s) = Nat.min n (String.length s).
Proof.
  revert s. induction n as [|n IH]; intro s; [reflexivity|].
  destruct s as [|c s]; simpl; [reflexivity|now rewrite IH].
Qed.

Lemma content_sample_length (content : string) :
  (String.length (content_sample content) <= 503)%nat.
Proof.
  unfold content_sample.
  destruct (Nat.ltb_spec 500 (String.length content)) as [L|L].
  - rewrite length_append, length_take. simpl String.length. lia.
  - lia.
Qed.

Lemma in_firstn {A : Type} (n : nat) (l : list A) (x : A) :
  In x (firstn n l) -> In x l.
Proof.
  revert l. induction n as [|n IH]; intros [|y l]; simpl; try tauto.
  intros [E|I]; auto.
Qed.

Lemma key_phrases_multi_word (n : nat) (chunks : list Span) :
  Forall (fun p => multi_word p = true)
    (firstn n (map span_text (filter (fun chunk => multi_word (span_text chunk)) chunks))).
Proof.
  apply Forall_forall. intros p I. apply in_firstn in I.
  apply in_map_iff in I. destruct I as [chunk [<- I]].
  apply filter_In in I. tauto.
Qed.

Lemma nonempty_false (s : string) : PyStr.nonempty s = false <-> s = EmptyString.
Proof.
  destruct s; simpl; split; congruence.
Qed.

(** C8, as the code has it.  A record that is not the failed one comes from
    a fetched and parsed page.  When the page has paragraph text, the record
    holds at most 10 key phrases, each of several words, and at most 10
    entities; when it has none, the record holds neither field.  The content
    sample is the paragraph text itself when that has at most 500
    characters, else its first 500 characters followed by three dots: at
    most 503 characters. *)
Theorem analysed_record_shape (url : string) (r : UrlRecord) :
  analyze_url_content url = Analysed r ->
  exists response soup,
    requests_get url = Ok response
    /\ BeautifulSoup (resp_text response) = Ok soup
    /\ ua_url r = url
    /\ match ua_key_phrases r, ua_entities r with
       | Some phrases, Some ents =>
           page_content soup <> EmptyString
           /\ (List.length phrases <= 10)%nat
           /\ Forall (fun p => multi_word p = true) phrases
           /\ (List.length ents <= 10)%nat
       | None, None => page_content soup = EmptyString
       | _, _ => False
       end
    /\ ua_content_sample r
       = (if (500 <? String.length (page_content soup))%nat
          then PyStr.take 500 (page_content soup) ++ "..."
          else page_content soup)%string
    /\ (String.length (ua_content_sample r) <= 503)%nat.
Proof.
  unfold analyze_url_content, analyze_url_body, bind.
  destruct (requests_get url) as [response|e] eqn:G; [|discriminate].
  destruct (raise_for_status response) as [u|e]; [|discriminate].
  destruct (BeautifulSoup (resp_text response)) as [soup|e] eqn:P; [|discriminate].
  set (phrases := firstn 10 (map span_text _)).
  set (ents := firstn 10 (map _ (doc_ents _))).
  set (sample := content_sample _).
  assert (Lp : (List.length phrases <= 10)%nat) by apply firstn_le_length.
  assert (Mp : Forall (fun p => multi_word p = true) phrases)
    by apply key_phrases_multi_word.
  assert (Le : (List.length ents <= 10)%nat) by apply firstn_le_length.
  assert (Ls : (String.length sample <= 503)%nat) by apply content_sample_length.
  assert (Es : sample = (if (500 <? String.length (page_content soup))%nat
                         then PyStr.take 500 (page_content soup) ++ "..."
                         else page_content soup)%string) by reflexivity.
  clearbody phrases ents sample.
  destruct (PyStr.nonempty (page_content soup)) eqn:N;
    intros [= <-]; exists response, soup;
    cbn [ua_url ua_key_phrases ua_entities ua_content_sample];
    (split; [reflexivity|split; [exact P|split; [reflexivity|]]]).
  - repeat split; try assumption.
    intro E; rewrite E in N; discriminate.
  - split; [now apply nonempty_false|]. split; assumption.
Qed.

(** C9, as the code has it.  Whatever the URL, the function returns a
    record: the failed one, carrying [str(e)], whenever [requests.get]
    raises, [raise_for_status] raises or the parser raises, and otherwise
    the analysis of the page.  No exception leaves it. *)
Theorem failures_become_failed_records (url : string) :
  (forall e, requests_get url = Raise e ->
             analyze_url_content url = Failed url (str_exn e) "failed")
  /\ (forall response e,
        requests_get url = Ok response ->
        raise_for_status response = Raise e ->
        analyze_url_content url = Failed url (str_exn e) "failed")
  /\ (forall response e,
        requests_get url = Ok response ->
        raise_for_status response = Ok tt ->
        BeautifulSoup (resp_text response) = Raise e ->
        analyze_url_content url = Failed url (str_exn e) "failed")
  /\ ((exists error, analyze_url_content url = Failed url error "failed")
      \/ (exists r, analyze_url_content url = Analysed r /\ ua_url r = url)).
Proof.
  unfold analyze_url_content, analyze_url_body, bind.
  repeat split.
  - intros e ->. reflexivity.
  - intros response e -> ->. reflexivity.
  - intros response e -> -> ->. reflexivity.
  - destruct (requests_get url) as [response|e]; [|left; eexists; reflexivity].
    destruct (raise_for_status response) as [u|e]; [|left; eexists; reflexivity].
    destruct (BeautifulSoup (resp_text response)) as [soup|e];
      [|left; eexists; reflexivity].
    right. destruct (PyStr.nonempty (page_content soup)); eexists; split; reflexivity.
Qed.

End ReferenceResolver.

Lemma analysed_record_shape_witness :
  exists r,
    AssessmentAI.analyze_url_content (H := Demo.world) "https://example.org/page" = Analysed r
    /\ (String.length (ua_content_sample r) <= 503)%nat.
Proof.
  eexists. split; [reflexivity|].
  destruct (analysed_record_shape (H := Demo.world) "https://example.org/page" _ eq_refl)
    as [response [soup [_ [_ [_ [_ [_ L]]]]]]].
  exact L.
Defined.

Lemma failures_become_failed_records_witness :
  requests_get (Capabilities := Demo.world) "https://example.org/missing"
  = Ok {| status_code := 404; resp_text := EmptyString |}
  /\ raise_for_status (Capabilities := Demo.world) {| status_code := 404; resp_text := EmptyString |}
     = Raise (Exception "HTTP error")
  /\ AssessmentAI.analyze_url_content (H := Demo.world) "https://example.org/missing"
     = Failed "https://example.org/missing" "HTTP error" "failed".
Proof.
  split; [reflexivity|split; [reflexivity|]].
  exact (proj1 (proj2 (failures_become_failed_records (H := Demo.world)
                         "https://example.org/missing"))
           {| status_code := 404; resp_text := EmptyString |} (Exception "HTTP error")
           eq_refl eq_refl).
Defined.

(** A fetched page without paragraph text gives a record without key
    phrases and entities, and a page of more than 500 characters gives a
    content sample of 503 characters. *)
Lemma analysed_record_counterexample :
  (exists r,
     AssessmentAI.analyze_url_content (H := Demo.world) "https://example.org/empty" = Analysed r
     /\ ua_key_phrases r = None /\ ua_entities r = None)
  /\ (exists r,
        AssessmentAI.analyze_url_content (H := Demo.world) "https://example.org/long" = Analysed r
        /\ String.length (ua_content_sample r) = 503%nat
        /\ ~ (String.length (ua_content_sample r) <= 500)%nat).
Proof.
  split.
  - eexists. split; [reflexivity|]. split; reflexivity.
  - eexists. split; [reflexivity|]. split; [vm_compute; reflexivity|].
    vm_compute. intro L. repeat (apply le_S_n in L). inversion L.
Qed.

(** A response with status 300, on which [raise_for_status] of [requests]
    does not raise, is analysed like a successful one. *)
Lemma non_2xx_response_counterexample :
  exists response r,
    requests_get (Capabilities := Demo.world) "https://example.org/choices" = Ok response
    /\ status_code response = 300%Z
    /\ ~ (200 <= status_code response < 300)%Z
    /\ AssessmentAI.analyze_url_content (H := Demo.world) "https://example.org/choices"
       = Analysed r.
Proof.
  do 2 eexists. split; [reflexivity|]. split; [reflexivity|].
  split; [simpl; lia|reflexivity].
Qed.

(** * Further properties of the code *)

(** ** Marking engine: what a result holds *)

Section MarkingResults.

Context `{Capabilities}.

Import AssessmentAI.

Local Open Scope Q_scope.

Lemma loop_total_is_sum (text : string) (doc : Doc) (cs : list Criterion) (st : MarkState) :
  ms_total_score (fold_left (mark_criterion text doc) cs st)
  = (ms_total_score st + View.total (map cm_score (map (criterion_mark text doc) cs)))%Z.
Proof.
  revert st. induction cs as [|c cs IH]; intro st.
  - simpl. lia.
  - cbn [fold_left map View.total fold_right]. rewrite IH.
    cbn [mark_criterion ms_total_score]. unfold View.total. lia.
Qed.

Lemma loop_max_is_sum (text : string) (doc : Doc) (cs : list Criterion) (st : MarkState) :
  ms_max_score (fold_left (mark_criterion text doc) cs st)
  = (ms_max_score st + View.total (map cm_max_score (map (criterion_mark text doc) cs)))%Z.
Proof.
  revert st. induction cs as [|c cs IH]; intro st.
  - simpl. lia.
  - cbn [fold_left map View.total fold_right]. rewrite IH.
    cbn [mark_criterion ms_max_score]. unfold View.total. lia.
Qed.

(** X1. In every marking result the total score is the sum of the scores of
    its criterion marks, the maximum score is the sum of their maximum
    scores, and the marks carry the names of the rubric criteria in the
    order of the rubric. *)
Theorem result_totals_are_sums
    (text : string) (brief : BriefAnalysis) (r : RubricAnalysis) :
  let res := mark_student_work text brief r in
  total_score res = View.total (map cm_score (criteria_marks res))
  /\ max_score res = View.total (map cm_max_score (criteria_marks res))
  /\ map cm_name (criteria_marks res) = map name (rubric_criteria r).
Proof.
  cbv zeta. rewrite marks_of_result. repeat split.
  - unfold mark_student_work. cbn [total_score]. now rewrite loop_total_is_sum.
  - unfold mark_student_work. cbn [max_score]. now rewrite loop_max_is_sum.
  - rewrite map_map. reflexivity.
Qed.

Lemma percentage_at_least (k s : Z) :
  inject_Z (10 * k) <= inject_Z s / inject_Z 10 * 100 <-> (k <= s)%Z.
Proof.
  unfold Qle, Qdiv, Qmult, Qinv, inject_Z. cbn [Qnum Qden].
  change (Z.pos (1 * 10 * 1)) with 10%Z. lia.
Qed.

Lemma percentage_below (k s : Z) :
  inject_Z s / inject_Z 10 * 100 < inject_Z (10 * k) <-> (s < k)%Z.
Proof.
  unfold Qlt, Qdiv, Qmult, Qinv, inject_Z. cbn [Qnum Qden].
  change (Z.pos (1 * 10 * 1)) with 10%Z. lia.
Qed.

Lemma feedback_by_score (n : string) (s : Z) (text d : string) :
  (strength (_generate_criterion_feedback n s 10 text d) = None <-> (s < 4)%Z)
  /\ (weakness (_generate_criterion_feedback n s 10 text d) = None <-> (8 <= s)%Z).
Proof.
  unfold _generate_criterion_feedback. cbv zeta.
  destruct (Qle_bool 80 _) eqn:E8;
    [apply Qle_bool_iff, (percentage_at_least 8) in E8
    |apply Qle_bool_false, (percentage_below 8) in E8;
     destruct (Qle_bool 60 _) eqn:E6;
     [apply Qle_bool_iff, (percentage_at_least 6) in E6
     |apply Qle_bool_false, (percentage_below 6) in E6;
      destruct (Qle_bool 40 _) eqn:E4;
      [apply Qle_bool_iff, (percentage_at_least 4) in E4
      |apply Qle_bool_false, (percentage_below 4) in E4]]];
    cbn [strength weakness];
    split; split; intro; try discriminate; try reflexivity; lia.
Qed.

(** X2. The feedback of a criterion mark follows its score: a mark has no
    strength exactly when its score is 3, and no weakness exactly when its
    score is 8 or 9; so every mark has a strength or a weakness. *)
Theorem mark_feedback_follows_score
    (text : string) (brief : BriefAnalysis) (r : RubricAnalysis) :
  Forall
    (fun m =>
       (strength (cm_feedback m) = None <-> cm_score m = 3%Z)
       /\ (weakness (cm_feedback m) = None <-> (8 <= cm_score m)%Z)
       /\ (strength (cm_feedback m) <> None \/ weakness (cm_feedback m) <> None))
    (criteria_marks (mark_student_work text brief r)).
Proof.
  rewrite marks_of_result. apply Forall_forall. intros m Hm.
  apply in_map_iff in Hm. destruct Hm as [c [<- _]].
  unfold criterion_mark. cbn [cm_feedback cm_score].
  pose proof (score_bounds (nlp text) c) as B.
  destruct (feedback_by_score (name c) (criterion_score (nlp text) c) text
              (match description c with Some d => d | None => EmptyString end)) as [S W].
  repeat split.
  - intro E. apply S in E. lia.
  - intro E. apply S. lia.
  - apply W.
  - apply W.
  - destruct (Z.lt_ge_cases (criterion_score (nlp text) c) 8) as [L|L].
    + right. intro E. apply W in E. lia.
    + left. intro E. apply S in E. lia.
Qed.

End MarkingResults.

Section OverallFeedback.

Context `{Capabilities}.

Import AssessmentAI.

Local Open Scope Q_scope.

Lemma mark_strength_cases (text : string) (doc : Doc) (c : Criterion) :
  let m := criterion_mark text doc c in
  (strength (cm_feedback m) = None /\ (3 <? cm_score m)%Z = false)
  \/ (exists s, strength (cm_feedback m) = Some s /\ PyStr.nonempty s = true
                /\ (3 <? cm_score m)%Z = true).
Proof.
  cbv zeta. unfold criterion_mark. cbn [cm_feedback cm_score].
  pose proof (score_bounds doc c) as B.
  set (s := criterion_score doc c) in *. clearbody s.
  unfold _generate_criterion_feedback. cbv zeta.
  destruct (Qle_bool 80 _) eqn:E8;
    [|destruct (Qle_bool 60 _) eqn:E6; [|destruct (Qle_bool 40 _) eqn:E4]];
    cbn [strength];
    try (right; eexists; split; [reflexivity|split; [reflexivity|]]; apply Z.ltb_lt).
  - apply Qle_bool_iff, (percentage_at_least 8) in E8. lia.
  - apply Qle_bool_iff, (percentage_at_least 6) in E6. lia.
  - apply Qle_bool_iff, (percentage_at_least 4) in E4. lia.
  - left. split; [reflexivity|]. apply Z.ltb_ge.
    apply Qle_bool_false, (percentage_below 4) in E4. lia.
Qed.

Lemma mark_weakness_cases (text : string) (doc : Doc) (c : Criterion) :
  let m := criterion_mark text doc c in
  (weakness (cm_feedback m) = None /\ (cm_score m <? 8)%Z = false)
  \/ (exists s, weakness (cm_feedback m) = Some s /\ PyStr.nonempty s = true
                /\ (cm_score m <? 8)%Z = true).
Proof.
  cbv zeta. unfold criterion_mark. cbn [cm_feedback cm_score].
  set (s := criterion_score doc c) in *. clearbody s.
  unfold _generate_criterion_feedback. cbv zeta.
  destruct (Qle_bool 80 _) eqn:E8;
    [|apply Qle_bool_false, (percentage_below 8) in E8;
      destruct (Qle_bool 60 _) eqn:E6; [|destruct (Qle_bool 40 _) eqn:E4]];
    cbn [weakness];
    try (right; eexists; split; [reflexivity|split; [reflexivity|]]; apply Z.ltb_lt; lia).
  left. split; [reflexivity|]. apply Z.ltb_ge.
  apply Qle_bool_iff, (percentage_at_least 8) in E8. lia.
Qed.

Lemma strengths_count (text : string) (doc : Doc) (cs : list Criterion) :
  List.length (collect_truthy (fun m => strength (cm_feedback m))
                 (map (criterion_mark text doc) cs))
  = List.length (filter (fun m => (3 <? cm_score m)%Z) (map (criterion_mark text doc) cs)).
Proof.
  induction cs as [|c cs IH]; [reflexivity|].
  unfold collect_truthy in *. cbn [map flat_map filter].
  rewrite length_app, IH.
  destruct (mark_strength_cases text doc c) as [[E L]|[s [E [N L]]]];
    rewrite E, L; [|rewrite N]; reflexivity.
Qed.

Lemma weaknesses_count (text : string) (doc : Doc) (cs : list Criterion) :
  List.length (collect_truthy (fun m => weakness (cm_feedback m))
                 (map (criterion_mark text doc) cs))
  = List.length (filter (fun m => (cm_score m <? 8)%Z) (map (criterion_mark text doc) cs)).
Proof.
  induction cs as [|c cs IH]; [reflexivity|].
  unfold collect_truthy in *. cbn [map flat_map filter].
  rewrite length_app, IH.
  destruct (mark_weakness_cases text doc c) as [[E L]|[s [E [N L]]]];
    rewrite E, L; [|rewrite N]; reflexivity.
Qed.

Lemma filter_nil_existsb {A : Type} (p : A -> bool) (l : list A) :
  existsb p l = match filter p l with [] => false | _ => true end.
Proof.
  induction l as [|x l IH]; [reflexivity|].
  simpl. destruct (p x); simpl; [reflexivity|exact IH].
Qed.

(** X3. The overall feedback of a marking result lists one strength for
    each criterion that scored more than 3 and one area for improvement for
    each criterion that scored less than 8; it gives three recommendations
    when some criterion scored less than 8 and two otherwise. *)
Theorem overall_feedback_counts_criteria
    (text : string) (brief : BriefAnalysis) (r : RubricAnalysis) :
  let res := mark_student_work text brief r in
  List.length (strengths (feedback res))
  = List.length (filter (fun m => (3 <? cm_score m)%Z) (criteria_marks res))
  /\ List.length (areas_for_improvement (feedback res))
     = List.length (filter (fun m => (cm_score m <? 8)%Z) (criteria_marks res))
  /\ List.length (recommendations (feedback res))
     = (if existsb (fun m => (cm_score m <? 8)%Z) (criteria_marks res) then 3 else 2)%nat.
Proof.
  cbv zeta. rewrite marks_of_result.
  unfold mark_student_work. cbn [feedback]. rewrite loop_marks. cbn [app].
  unfold _generate_overall_feedback.
  cbn [strengths areas_for_improvement recommendations].
  split; [apply strengths_count|split; [apply weaknesses_count|]].
  rewrite filter_nil_existsb.
  pose proof (weaknesses_count text (nlp text) (rubric_criteria r)) as W.
  destruct (collect_truthy _ _); destruct (filter _ _); try discriminate W; reflexivity.
Qed.

(** *** The URLs of a submission *)

Lemma analysis_keeps_url (url : string) :
  View.analysis_url (analyze_url_content url) = url.
Proof.
  unfold analyze_url_content, analyze_url_body, bind.
  destruct (requests_get url) as [response|e]; [|reflexivity].
  destruct (raise_for_status response) as [u|e]; [|reflexivity].
  destruct (BeautifulSoup (resp_text response)) as [soup|e]; [|reflexivity].
  destruct (PyStr.nonempty (page_content soup)); reflexivity.
Qed.

(** X4. A marking result counts every URL extracted from the submission
    but analyses the first five only, in their order, one record (analysed
    or failed) for each, carrying that URL; and every extracted URL is a
    match of the URL pattern that passed the validation. *)
Theorem first_five_urls_are_analysed
    (text : string) (brief : BriefAnalysis) (r : RubricAnalysis) :
  let res := mark_student_work text brief r in
  map View.analysis_url (url_analyses res) = firstn 5 (extract_urls text)
  /\ url_count (statistics res) = List.length (extract_urls text)
  /\ List.length (url_analyses res) = Nat.min 5 (url_count (statistics res))
  /\ Forall (fun u => In u (findall_urls text) /\ valid_url u = true) (extract_urls text).
Proof.
  cbv zeta. unfold mark_student_work. cbn [url_analyses statistics url_count].
  repeat split.
  - rewrite map_map. erewrite map_ext; [apply map_id|]. apply analysis_keeps_url.
  - rewrite length_map. apply length_firstn.
  - apply Forall_forall. intros u I. unfold extract_urls in I.
    apply filter_In in I. exact I.
Qed.

End OverallFeedback.

(** ** Grade determination with a boundary map *)

Section GradeBoundaries.

Import AssessmentAI.

Local Open Scope Q_scope.

Lemma default_grade_is_fixed_band (pct : Q) :
  _determine_grade pct [] = Spec.fixed_band pct.
Proof.
  unfold _determine_grade, Spec.fixed_band, default_boundaries, first_band, inject_Z.
  split_comparisons; try reflexivity; exfalso; lra.
Qed.

Lemma first_band_none (pct : Q) (b : Dict.t (Z * Z)) :
  (forall g lo hi, In (g, (lo, hi)) b -> ~ (inject_Z lo <= pct <= inject_Z hi)) ->
  first_band pct b = None.
Proof.
  induction b as [|[g [lo hi]] b IH]; intro N; simpl; [reflexivity|].
  destruct (Qle_bool (inject_Z lo) pct && Qle_bool pct (inject_Z hi)) eqn:E.
  - exfalso. apply andb_true_iff in E. destruct E as [E1 E2].
    apply Qle_bool_iff in E1, E2. apply (N g lo hi); [now left|now split].
  - apply IH. intros g' lo' hi' I. apply (N g' lo' hi'). now right.
Qed.

Lemma first_band_first (pct : Q) (pre post : Dict.t (Z * Z)) (g : string) (lo hi : Z) :
  inject_Z lo <= pct <= inject_Z hi ->
  (forall g' lo' hi', In (g', (lo', hi')) pre -> ~ (inject_Z lo' <= pct <= inject_Z hi')) ->
  first_band pct (pre ++ (g, (lo, hi)) :: post) = Some g.
Proof.
  intros [L U] N. induction pre as [|[g' [lo' hi']] pre IH]; simpl.
  - apply Qle_bool_iff in L, U. now rewrite L, U.
  - destruct (Qle_bool (inject_Z lo') pct && Qle_bool pct (inject_Z hi')) eqn:E.
    + exfalso. apply andb_true_iff in E. destruct E as [E1 E2].
      apply Qle_bool_iff in E1, E2. apply (N g' lo' hi'); [now left|now split].
    + apply IH. intros g0 lo0 hi0 I. apply (N g0 lo0 hi0). now right.
Qed.

Lemma first_band_key (pct : Q) (b : Dict.t (Z * Z)) (g : string) :
  first_band pct b = Some g -> In g (Dict.keys b).
Proof.
  induction b as [|[g' [lo hi]] b IH]; simpl; [discriminate|].
  destruct (Qle_bool (inject_Z lo) pct && Qle_bool pct (inject_Z hi)).
  - intros [= ->]. now left.
  - intro E. right. now apply IH.
Qed.

Lemma grade_of_boundaries (pct : Q) (b : Dict.t (Z * Z)) :
  b <> [] ->
  _determine_grade pct b
  = match first_band pct b with Some g => g | None => Spec.fixed_band pct end.
Proof.
  destruct b as [|x b]; [congruence|reflexivity].
Qed.

Lemma fixed_band_letter (pct : Q) : In (Spec.fixed_band pct) ["A"; "B"; "C"; "D"; "F"].
Proof.
  unfold Spec.fixed_band.
  destruct (Qle_bool 80 pct); [simpl; tauto|].
  destruct (Qle_bool 70 pct); [simpl; tauto|].
  destruct (Qle_bool 60 pct); [simpl; tauto|].
  destruct (Qle_bool 50 pct); simpl; tauto.
Qed.

(** X5. With any boundary map, the grade is the label of the first
    boundary, in the order of the map, whose range contains the percentage;
    when no range of the map contains it (as in the gap between 79 and 80,
    or with an empty map) the grade is the letter of the fixed banding.  So
    the grade is a label of the map or one of A, B, C, D, F. *)
Theorem grade_is_first_matching_boundary (pct : Q) (b : Dict.t (Z * Z)) :
  (forall pre g lo hi post,
      b = pre ++ (g, (lo, hi)) :: post ->
      inject_Z lo <= pct <= inject_Z hi ->
      (forall g' lo' hi', In (g', (lo', hi')) pre ->
                          ~ (inject_Z lo' <= pct <= inject_Z hi')) ->
      _determine_grade pct b = g)
  /\ ((forall g lo hi, In (g, (lo, hi)) b -> ~ (inject_Z lo <= pct <= inject_Z hi)) ->
      _determine_grade pct b = Spec.fixed_band pct)
  /\ (In (_determine_grade pct b) (Dict.keys b)
      \/ In (_determine_grade pct b) ["A"; "B"; "C"; "D"; "F"]).
Proof.
  split; [|split].
  - intros pre g lo hi post -> R N.
    rewrite grade_of_boundaries by (destruct pre; discriminate).
    now rewrite (first_band_first pct pre post g lo hi R N).
  - intro N. destruct b as [|x b]; [apply default_grade_is_fixed_band|].
    rewrite grade_of_boundaries by discriminate.
    now rewrite (first_band_none pct (x :: b) N).
  - destruct b as [|x b].
    + right. rewrite default_grade_is_fixed_band. apply fixed_band_letter.
    + rewrite grade_of_boundaries by discriminate.
      destruct (first_band pct (x :: b)) as [g|] eqn:E.
      * left. now apply first_band_key in E.
      * right. apply fixed_band_letter.
Qed.

End GradeBoundaries.

Lemma grade_is_first_matching_boundary_witness :
  AssessmentAI._determine_grade 65 Demo.pass_merit = "Merit"
  /\ AssessmentAI._determine_grade 20 Demo.pass_merit = "F".
Proof.
  split.
  - apply (proj1 (grade_is_first_matching_boundary 65 Demo.pass_merit)
             [("Pass", (40, 59)%Z)] "Merit" 60%Z 69%Z [("Distinction", (70, 100)%Z)]).
    + reflexivity.
    + split; discriminate.
    + intros g' lo' hi' [E|[]]. injection E as _ <- <-.
      intros [_ U]. apply U. reflexivity.
  - apply (proj1 (proj2 (grade_is_first_matching_boundary 20 Demo.pass_merit))).
    intros g lo hi [E|[E|[E|[]]]]; injection E as _ <- <-; intros [L _]; apply L; reflexivity.
Defined.

(** ** Rubric parser: the three passes and the boundaries *)

Section RubricPasses.

Context `{Capabilities}.

Import AssessmentAI.

(** X6. When the weighted pattern matches, the rubric has one criterion for
    each match, in the order of the matches, whose weight is the matched
    integer, whose name is the stripped first capture and whose description
    is the stripped third capture; the paragraph pass and the default
    criteria are not used. *)
Theorem weighted_headers_become_criteria (rubric_text : string) :
  findall_criteria rubric_text <> [] ->
  let cs := rubric_criteria (process_rubric rubric_text) in
  List.length cs = List.length (findall_criteria rubric_text)
  /\ map name cs = map (fun m => PyStr.strip (fst (fst m))) (findall_criteria rubric_text)
  /\ map weight cs = map (fun m => Some (snd (fst m))) (findall_criteria rubric_text)
  /\ map description cs = map (fun m => Some (PyStr.strip (snd m))) (findall_criteria rubric_text).
Proof.
  intro NE. cbv zeta.
  assert (E : rubric_criteria (process_rubric rubric_text)
              = map weighted_criterion (findall_criteria rubric_text)).
  { unfold process_rubric, rubric_criteria, weighted_pattern_pass. cbn [criteria].
    destruct (findall_criteria rubric_text); [congruence|reflexivity]. }
  rewrite E. rewrite length_map, !map_map.
  repeat split; apply map_ext; intros [[n w] d]; reflexivity.
Qed.

(** *** The paragraph pass *)

Lemma endswith_cons (a : ascii) (s suffix : string) :
  PyStr.endswith (String a s) suffix
  = (String.eqb (String a s) suffix || PyStr.endswith s suffix)%bool.
Proof. reflexivity. Qed.

Lemma endswith_rstrip (p : ascii -> bool) (s : string) (c : ascii) :
  p c = true -> PyStr.endswith (PyStr.rstrip_by p s) (String c EmptyString) = false.
Proof.
  intro Pc. induction s as [|a s IH]; [reflexivity|].
  cbn [PyStr.rstrip_by].
  destruct (PyStr.rstrip_by p s) as [|b r] eqn:E.
  - destruct (p a) eqn:Pa; [reflexivity|].
    rewrite endswith_cons. cbn.
    destruct (Ascii.eqb_spec a c) as [->|NE]; [congruence|reflexivity].
  - rewrite endswith_cons, IH. cbn [String.eqb].
    destruct (Ascii.eqb a c); reflexivity.
Qed.

Lemma header_name_has_no_marker (para : string) :
  PyStr.endswith (PyStr.rstrip ":)" para) ":" = false
  /\ PyStr.endswith (PyStr.rstrip ":)" para) ")" = false.
Proof.
  unfold PyStr.rstrip. split; apply endswith_rstrip; reflexivity.
Qed.

Lemma paragraph_state_shape (paras : list string) (st : ParagraphState) :
  let good c :=
    weight c = Some 25%Z /\ name c <> EmptyString
    /\ PyStr.endswith (name c) ":" = false /\ PyStr.endswith (name c) ")" = false in
  let good_name n :=
    PyStr.endswith n ":" = false /\ PyStr.endswith n ")" = false in
  Forall good (ps_criteria st) ->
  (forall n, current_criterion st = Some n -> good_name n) ->
  Forall good (close_criterion (fold_left paragraph_step paras st)).
Proof.
  cbv zeta.
  assert (C : forall st',
             Forall (fun c => weight c = Some 25%Z /\ name c <> EmptyString
                              /\ PyStr.endswith (name c) ":" = false
                              /\ PyStr.endswith (name c) ")" = false) (ps_criteria st') ->
             (forall n, current_criterion st' = Some n ->
                        PyStr.endswith n ":" = false /\ PyStr.endswith n ")" = false) ->
             Forall (fun c => weight c = Some 25%Z /\ name c <> EmptyString
                              /\ PyStr.endswith (name c) ":" = false
                              /\ PyStr.endswith (name c) ")" = false) (close_criterion st')).
  { intros st' F G. unfold close_criterion.
    destruct (current_criterion st') as [n|] eqn:E; [|exact F].
    destruct (PyStr.nonempty n) eqn:N; [|exact F].
    apply Forall_app. split; [exact F|].
    constructor; [|constructor]. cbn [weight name].
    destruct (G n eq_refl) as [G1 G2].
    repeat split; try assumption. intros ->. discriminate N. }
  revert st. induction paras as [|para paras IH]; intros st F G; cbn [fold_left].
  - now apply C.
  - apply IH.
    + unfold paragraph_step.
      destruct (negb (PyStr.nonempty (PyStr.strip para))); [exact F|].
      destruct (is_header (PyStr.strip para)); [now apply C|].
      destruct (truthy (current_criterion st)); exact F.
    + unfold paragraph_step.
      destruct (negb (PyStr.nonempty (PyStr.strip para))); [exact G|].
      destruct (is_header (PyStr.strip para)).
      * cbn [current_criterion]. intros n [= <-]. apply header_name_has_no_marker.
      * destruct (truthy (current_criterion st)); exact G.
Qed.

(** X7. Every criterion the paragraph pass extracts has the weight 25 and a
    name that is not empty and does not end in a colon or a closing
    parenthesis. *)
Theorem paragraph_criteria_shape (rubric_text : string) :
  Forall
    (fun c =>
       weight c = Some 25%Z /\ name c <> EmptyString
       /\ PyStr.endswith (name c) ":" = false /\ PyStr.endswith (name c) ")" = false)
    (paragraph_heuristic_pass rubric_text).
Proof.
  unfold paragraph_heuristic_pass.
  apply (paragraph_state_shape _
           {| ps_criteria := []; current_criterion := None; current_description := [] |}).
  - constructor.
  - discriminate.
Qed.

(** *** Grade boundaries *)

Lemma get_labelled (text : string) (labels : list string) (d : Dict.t (Z * Z))
    (label : string) :
  Dict.get label (fold_left (labelled_boundary text) labels d)
  = if in_list label labels then
      match search_grade label text with
      | Some (g1, Some g2) => Some (g1, g2)
      | Some (g1, None) => Some (g1, g1)
      | None => Dict.get label d
      end
    else Dict.get label d.
Proof.
  revert d. induction labels as [|l0 labels IH]; intro d; [reflexivity|].
  cbn [fold_left]. rewrite IH. unfold in_list. cbn [existsb].
  fold (in_list label labels).
  assert (D : Dict.get label (labelled_boundary text d l0)
              = if String.eqb label l0 then
                  match search_grade label text with
                  | Some (g1, Some g2) => Some (g1, g2)
                  | Some (g1, None) => Some (g1, g1)
                  | None => Dict.get label d
                  end
                else Dict.get label d).
  { unfold labelled_boundary.
    destruct (String.eqb_spec label l0) as [->|NE].
    - destruct (search_grade l0 text) as [[g1 [g2|]]|]; try apply get_set_same; reflexivity.
    - destruct (search_grade l0 text) as [[g1 [g2|]]|];
        try (now apply get_set_other); reflexivity. }
  rewrite D.
  destruct (String.eqb label l0); destruct (in_list label labels);
    destruct (search_grade label text) as [[g1 [g2|]]|]; reflexivity.
Qed.

(** X8. When the rubric text gives a boundary for at least one of the nine
    grade labels, the boundary map holds exactly the labels that matched: a
    range N-M as (N, M), a single value N as (N, N); the generic percentage
    ranges of the text are not read.  When no label matches, the map is the
    one built from the generic ranges. *)
Theorem labelled_boundaries_take_precedence (text : string) :
  ((exists label, In label grade_labels /\ search_grade label text <> None) ->
   forall label,
     Dict.get label (_extract_grade_boundaries text)
     = if in_list label grade_labels then
         match search_grade label text with
         | Some (g1, Some g2) => Some (g1, g2)
         | Some (g1, None) => Some (g1, g1)
         | None => None
         end
       else None)
  /\ ((forall label, In label grade_labels -> search_grade label text = None) ->
      _extract_grade_boundaries text = fold_left inferred_boundary (finditer_ranges text) []).
Proof.
  split.
  - intros [l [I S]] label.
    assert (NE : fold_left (labelled_boundary text) grade_labels [] <> []).
    { intro E. pose proof (get_labelled text grade_labels [] l) as G.
      rewrite E in G.
      assert (IL : in_list l grade_labels = true).
      { unfold in_list. apply existsb_exists. exists l. split; [exact I|apply String.eqb_refl]. }
      rewrite IL in G. cbn [Dict.get] in G.
      destruct (search_grade l text) as [[g1 [g2|]]|]; congruence. }
    unfold _extract_grade_boundaries.
    destruct (fold_left (labelled_boundary text) grade_labels []) as [|x d] eqn:E;
      [congruence|].
    rewrite <- E. rewrite get_labelled. reflexivity.
  - intro N. unfold _extract_grade_boundaries.
    assert (E : forall labels d,
               (forall label, In label labels -> search_grade label text = None) ->
               fold_left (labelled_boundary text) labels d = d).
    { induction labels as [|l0 labels IH]; intros d A; [reflexivity|].
      cbn [fold_left]. unfold labelled_boundary at 2.
      rewrite (A l0 (or_introl eq_refl)). apply IH. intros l I. apply A. now right. }
    rewrite (E grade_labels [] N). reflexivity.
Qed.

End RubricPasses.

Lemma weighted_headers_become_criteria_witness :
  let W := Demo.with_patterns [("Content ", 40%Z, " Quality of content ")]
             (fun _ => None) [] in
  findall_criteria (Capabilities := W) "Content (40%): Quality of content" <> []
  /\ map weight (AssessmentAI.rubric_criteria
                   (AssessmentAI.process_rubric (H := W) "Content (40%): Quality of content"))
     = [Some 40%Z].
Proof.
  cbv zeta. split; [discriminate|].
  apply (weighted_headers_become_criteria
           (H := Demo.with_patterns [("Content ", 40%Z, " Quality of content ")]
                   (fun _ => None) [])
           "Content (40%): Quality of content").
  discriminate.
Defined.

Lemma labelled_boundaries_take_precedence_witness :
  let W := Demo.with_patterns []
             (fun label => if String.eqb label "A" then Some (80%Z, Some 100%Z)
                           else if String.eqb label "Pass" then Some (40%Z, None)
                           else None)
             [(0%Z, 49%Z, "F")] in
  Dict.get "Pass" (AssessmentAI._extract_grade_boundaries (H := W) "Grade A: 80-100 Mark Pass: 40")
  = Some (40%Z, 40%Z)
  /\ Dict.get "F" (AssessmentAI._extract_grade_boundaries (H := W) "Grade A: 80-100 Mark Pass: 40")
     = None.
Proof.
  cbv zeta.
  pose proof (proj1 (labelled_boundaries_take_precedence
                       (H := Demo.with_patterns []
                               (fun label => if String.eqb label "A" then Some (80%Z, Some 100%Z)
                                             else if String.eqb label "Pass" then Some (40%Z, None)
                                             else None)
                               [(0%Z, 49%Z, "F")])
                       "Grade A: 80-100 Mark Pass: 40")) as P.
  assert (M : exists label, In label AssessmentAI.grade_labels
                            /\ (if String.eqb label "A" then Some (80%Z, Some 100%Z)
                                else if String.eqb label "Pass" then Some (40%Z, None)
                                else None) <> None).
  { exists "A". split; [left; reflexivity|discriminate]. }
  split; [exact (P M "Pass")|exact (P M "F")].
Defined.

(** ** Keywords and key topics *)

Section KeywordsAndTopics.

Context `{Capabilities}.

Import AssessmentAI.

Lemma insert_by_len_in (x z : string) (l : list string) :
  In z (insert_by_len x l) <-> z = x \/ In z l.
Proof.
  induction l as [|y l IH]; simpl.
  - intuition.
  - destruct (String.length x <? String.length y)%nat; simpl; rewrite ?IH; intuition.
Qed.

Lemma insert_by_len_sorted (x : string) (l : list string) :
  View.longest_first l -> View.longest_first (insert_by_len x l).
Proof.
  unfold View.longest_first. induction l as [|y l IH]; intro S; simpl.
  - repeat constructor.
  - inversion S as [|? ? S' F]; subst.
    destruct (Nat.ltb_spec (String.length x) (String.length y)) as [L|L].
    + constructor; [now apply IH|].
      apply Forall_forall. intros z I. apply insert_by_len_in in I.
      destruct I as [->|I]; [lia|].
      now apply (proj1 (Forall_forall _ _) F).
    + constructor; [exact S|].
      constructor; [exact L|].
      apply Forall_forall. intros z I.
      pose proof (proj1 (Forall_forall _ _) F z I). simpl in *. lia.
Qed.

Lemma sort_by_len_sorted (l : list string) : View.longest_first (sort_by_len l).
Proof.
  induction l as [|x l IH]; simpl; [constructor|now apply insert_by_len_sorted].
Qed.

Lemma insert_by_len_perm (x : string) (l : list string) :
  Permutation (insert_by_len x l) (x :: l).
Proof.
  induction l as [|y l IH]; simpl; [reflexivity|].
  destruct (String.length x <? String.length y)%nat; [|reflexivity].
  rewrite IH. apply perm_swap.
Qed.

Lemma sort_by_len_perm (l : list string) : Permutation (sort_by_len l) l.
Proof.
  induction l as [|x l IH]; simpl; [reflexivity|].
  rewrite insert_by_len_perm. now constructor.
Qed.

Lemma firstn_sorted {A : Type} (R : A -> A -> Prop) (n : nat) (l : list A) :
  StronglySorted R l -> StronglySorted R (firstn n l).
Proof.
  revert l. induction n as [|n IH]; intros l S; [constructor|].
  destruct l as [|x l]; [constructor|].
  inversion S as [|? ? S' F]; subst. simpl. constructor; [now apply IH|].
  apply Forall_forall. intros z I. apply in_firstn in I.
  now apply (proj1 (Forall_forall _ _) F).
Qed.

Lemma firstn_nodup {A : Type} (n : nat) (l : list A) : NoDup l -> NoDup (firstn n l).
Proof.
  intro N. rewrite <- (firstn_skipn n l) in N. now apply NoDup_app_remove_r in N.
Qed.

(** X9. The keywords extracted from a text are at most 20 and are ordered
    longest first. *)
Theorem keywords_longest_first (text : string) :
  (List.length (_extract_keywords text) <= 20)%nat
  /\ View.longest_first (_extract_keywords text).
Proof.
  unfold _extract_keywords. cbv zeta. split.
  - apply firstn_le_length.
  - apply firstn_sorted, sort_by_len_sorted.
Qed.

(** *** Lower case *)

Lemma lower_char_idempotent (c : ascii) :
  PyStr.lower_char (PyStr.lower_char c) = PyStr.lower_char c.
Proof.
  destruct c as [[] [] [] [] [] [] [] []]; reflexivity.
Qed.

Lemma lower_idempotent (s : string) : PyStr.lower (PyStr.lower s) = PyStr.lower s.
Proof.
  induction s as [|c s IH]; simpl; [reflexivity|].
  now rewrite lower_char_idempotent, IH.
Qed.

Lemma lower_length (s : string) : String.length (PyStr.lower s) = String.length s.
Proof.
  induction s as [|c s IH]; simpl; [reflexivity|now rewrite IH].
Qed.

Lemma lower_char_space (c : ascii) :
  PyStr.is_space (PyStr.lower_char c) = PyStr.is_space c.
Proof.
  destruct c as [[] [] [] [] [] [] [] []]; reflexivity.
Qed.

Lemma nonempty_snoc (cur : string) (c : ascii) :
  PyStr.nonempty (cur ++ String c EmptyString) = true.
Proof.
  destruct cur; reflexivity.
Qed.

Lemma split_ws_lower_from (s cur cur' : string) :
  PyStr.nonempty cur = PyStr.nonempty cur' ->
  List.length (PyStr.split_ws_from cur' (PyStr.lower s))
  = List.length (PyStr.split_ws_from cur s).
Proof.
  revert cur cur'. induction s as [|c s IH]; intros cur cur' N; simpl.
  - unfold PyStr.flush. rewrite N. destruct (PyStr.nonempty cur'); reflexivity.
  - rewrite lower_char_space. destruct (PyStr.is_space c).
    + rewrite !length_app. rewrite (IH EmptyString EmptyString eq_refl).
      unfold PyStr.flush. rewrite N. destruct (PyStr.nonempty cur'); reflexivity.
    + apply IH. now rewrite !nonempty_snoc.
Qed.

Lemma multi_word_lower (s : string) : multi_word (PyStr.lower s) = multi_word s.
Proof.
  unfold multi_word, PyStr.split_ws.
  now rewrite (split_ws_lower_from s EmptyString EmptyString eq_refl).
Qed.

(** X10. The extracted keywords are distinct and lower-case. *)
Theorem keywords_distinct_and_lower_case (text : string) :
  Spec.set_order_ok ->
  NoDup (_extract_keywords text)
  /\ Forall (fun k => PyStr.lower k = k) (_extract_keywords text).
Proof.
  intro S. unfold _extract_keywords. cbv zeta.
  set (candidates := _ ++ _ ++ _).
  assert (L : Forall (fun k => PyStr.lower k = k) candidates).
  { subst candidates. rewrite !Forall_app. repeat split;
      apply Forall_forall; intros k I; apply in_map_iff in I;
      destruct I as [x [<- _]]; apply lower_idempotent. }
  clearbody candidates. destruct (S candidates) as [N I]. split.
  - apply firstn_nodup.
    apply (Permutation_NoDup (l := list_of_set candidates)); [|exact N].
    symmetry. apply sort_by_len_perm.
  - apply Forall_forall. intros k Ik. apply in_firstn in Ik.
    apply (Permutation_in _ (sort_by_len_perm _)) in Ik.
    apply I in Ik. now apply (proj1 (Forall_forall _ _) L).
Qed.

(** X11. The key topics of a brief are at most 10, distinct, lower-case,
    longer than 5 characters and made of several words. *)
Theorem key_topics_shape (brief_text : string) :
  Spec.set_order_ok ->
  exists topics,
    key_topics (process_assessment_brief brief_text) = Some topics
    /\ (List.length topics <= 10)%nat
    /\ NoDup topics
    /\ Forall (fun t => (5 < String.length t)%nat /\ PyStr.lower t = t
                        /\ multi_word t = true) topics.
Proof.
  intro S. eexists. split; [reflexivity|].
  unfold brief_topics_of. cbv zeta.
  set (candidates := map PyStr.lower _).
  destruct (S candidates) as [N I].
  split; [apply firstn_le_length|split; [now apply firstn_nodup|]].
  apply Forall_forall. intros t It. apply in_firstn in It. apply I in It.
  subst candidates. apply in_map_iff in It. destruct It as [x [<- Ix]].
  apply filter_In in Ix. destruct Ix as [Ix Lx].
  apply in_map_iff in Ix. destruct Ix as [chunk [<- Ic]].
  apply filter_In in Ic. destruct Ic as [_ M].
  rewrite lower_length, lower_idempotent, multi_word_lower.
  apply Nat.ltb_lt in Lx. auto.
Qed.

(** *** The three lists of sentences *)

Lemma classify_sentences (sents : list Span) (b : Buckets) :
  let texts := map (fun sent => PyStr.strip (span_text sent)) sents in
  let b' := fold_left classify_sentence sents b in
  bk_requirements b' = bk_requirements b ++ filter (search_cues requirement_cues) texts
  /\ bk_learning_outcomes b'
     = bk_learning_outcomes b ++ filter (search_cues outcome_cues) texts
  /\ bk_submission_details b'
     = bk_submission_details b ++ filter (search_cues submission_cues) texts.
Proof.
  cbv zeta. revert b. induction sents as [|sent sents IH]; intro b.
  - simpl. now rewrite !app_nil_r.
  - cbn [fold_left map filter].
    destruct (IH (classify_sentence b sent)) as [R [O D]].
    rewrite R, O, D. cbn [classify_sentence bk_requirements bk_learning_outcomes
                            bk_submission_details].
    repeat split;
      match goal with
      | |- context [search_cues ?c ?t] => destruct (search_cues c t)
      end; rewrite <- ?app_assoc; reflexivity.
Qed.

(** X12. Each of the three lists of a brief analysis holds, in the order of
    the text, the stripped sentences in which one of its cue phrases occurs,
    whatever the letter case; a sentence with cues of several lists is in
    each of them. *)
Theorem brief_sentences_are_classified (brief_text : string) :
  let texts := map (fun sent => PyStr.strip (span_text sent)) (doc_sents (nlp brief_text)) in
  let analysis := process_assessment_brief brief_text in
  requirements analysis = filter (search_cues requirement_cues) texts
  /\ learning_outcomes analysis = filter (search_cues outcome_cues) texts
  /\ submission_details analysis = filter (search_cues submission_cues) texts
  /\ forall t cue,
       In t texts -> PyStr.contains cue (PyStr.lower t) = true ->
       (In cue requirement_cues -> In t (requirements analysis))
       /\ (In cue outcome_cues -> In t (learning_outcomes analysis))
       /\ (In cue submission_cues -> In t (submission_details analysis)).
Proof.
  cbv zeta. unfold process_assessment_brief.
  cbn [requirements learning_outcomes submission_details].
  destruct (classify_sentences (doc_sents (nlp brief_text))
              {| bk_requirements := []; bk_learning_outcomes := [];
                 bk_submission_details := [] |}) as [R [O D]].
  cbv zeta in R, O, D. cbn [bk_requirements bk_learning_outcomes bk_submission_details app] in R, O, D.
  rewrite R, O, D. repeat split; intro I;
    apply filter_In; (split; [assumption|]);
    unfold search_cues; apply existsb_exists; exists cue; split; assumption.
Qed.

(** X13. When no noun phrase of the brief has several words and more than 5
    characters, the brief has no key topic and every submission marked
    against it has topic coverage 1. *)
Theorem brief_without_topics_is_fully_covered (brief_text : string) :
  list_of_set [] = [] ->
  Forall (fun chunk => multi_word (span_text chunk) = false
                       \/ (String.length (span_text chunk) <= 5)%nat)
    (doc_noun_chunks (nlp brief_text)) ->
  key_topics (process_assessment_brief brief_text) = Some []
  /\ forall text r,
       topic_coverage (statistics (mark_student_work text
                                     (process_assessment_brief brief_text) r)) = 1%Q.
Proof.
  intros E F.
  assert (K : key_topics (process_assessment_brief brief_text) = Some []).
  { unfold process_assessment_brief. cbn [key_topics]. f_equal.
    unfold brief_topics_of. cbv zeta.
    assert (Z : filter (fun topic => (5 <? String.length topic)%nat)
                  (map span_text
                     (filter (fun chunk => multi_word (span_text chunk))
                        (doc_noun_chunks (nlp brief_text)))) = []).
    { induction F as [|chunk chunks [M|L] F IH]; [reflexivity| |].
      - cbn [filter]. rewrite M. exact IH.
      - cbn [filter]. destruct (multi_word (span_text chunk)); [|exact IH].
        cbn [map filter]. apply Nat.ltb_ge in L. rewrite L. exact IH. }
    rewrite Z. cbn [map]. rewrite E. reflexivity. }
  split; [exact K|].
  intros text r. unfold mark_student_work. cbn [statistics topic_coverage].
  rewrite K. reflexivity.
Qed.

End KeywordsAndTopics.

Lemma demo_set_order : Spec.set_order_ok (H := Demo.world).
Proof.
  intro l. split; [apply NoDup_nodup|]. intro x. apply nodup_In.
Qed.

Lemma keywords_distinct_and_lower_case_witness :
  Spec.set_order_ok (H := Demo.world)
  /\ NoDup (AssessmentAI._extract_keywords (H := Demo.world) "Quality Of Content").
Proof.
  split; [exact demo_set_order|].
  exact (proj1 (keywords_distinct_and_lower_case (H := Demo.world)
                  "Quality Of Content" demo_set_order)).
Defined.

Lemma key_topics_shape_witness :
  Spec.set_order_ok (H := Demo.world)
  /\ exists topics,
       key_topics (AssessmentAI.process_assessment_brief (H := Demo.world)
                     "Students must submit an Essay") = Some topics
       /\ (List.length topics <= 10)%nat.
Proof.
  split; [exact demo_set_order|].
  destruct (key_topics_shape (H := Demo.world) "Students must submit an Essay" demo_set_order)
    as [topics [E [L _]]].
  exists topics. split; [exact E|exact L].
Defined.

Lemma brief_without_topics_is_fully_covered_witness :
  list_of_set (Capabilities := Demo.world) [] = []
  /\ topic_coverage
       (statistics
          (AssessmentAI.mark_student_work (H := Demo.world) "An essay of quality"
             (AssessmentAI.process_assessment_brief (H := Demo.world) "Essay")
             (Demo.rubric 40 60))) = 1%Q.
Proof.
  split; [reflexivity|].
  apply (brief_without_topics_is_fully_covered (H := Demo.world) "Essay").
  - reflexivity.
  - repeat constructor.
Defined.

(** ** Analytics aggregator: distribution, statistics, weaknesses *)

Section AnalyticsStatistics.

Import AssessmentAI.

Local Open Scope Q_scope.

Lemma report_fields (rs : list ResultEntry) (a : Analytics) :
  generate_analytics rs = Report a ->
  rs <> []
  /\ count (summary a) = List.length rs
  /\ avg_percentage (summary a) = mean (map re_percentage rs)
  /\ grade_distribution (summary a)
     = fold_left count_grade
         (map (fun r => match re_grade r with Some g => g | None => "N/A" end) rs) []
  /\ averages (criteria_analysis a) = criteria_averages rs
  /\ ca_strengths (criteria_analysis a)
     = fst (fold_left classify (criteria_averages rs) ([], []))
  /\ ca_weaknesses (criteria_analysis a)
     = snd (fold_left classify (criteria_averages rs) ([], []))
  /\ wc_average (statistics_word_count a)
     = mean (map inject_Z (map (stat_or_zero se_word_count) rs))
  /\ wc_minimum (statistics_word_count a) = list_min (map (stat_or_zero se_word_count) rs)
  /\ wc_maximum (statistics_word_count a) = list_max (map (stat_or_zero se_word_count) rs)
  /\ statistics_url_usage_average a
     = mean (map inject_Z (map (stat_or_zero se_url_count) rs)).
Proof.
  destruct rs as [|r rs]; [discriminate|].
  intros [= <-]. repeat split. discriminate.
Qed.

Lemma get_count_grade (d : Dict.t nat) (g g0 : string) :
  Dict.get g (count_grade d g0)
  = if String.eqb g g0
    then Some (match Dict.get g d with Some n => n | None => 0 end + 1)%nat
    else Dict.get g d.
Proof.
  unfold count_grade. destruct (String.eqb_spec g g0) as [->|NE].
  - apply get_set_same.
  - now apply get_set_other.
Qed.

Lemma count_grades_from (grades : list string) (d : Dict.t nat) (g : string) :
  Dict.get g (fold_left count_grade grades d)
  = match Dict.get g d, List.length (filter (String.eqb g) grades) with
    | None, O => None
    | None, n => Some n
    | Some k, n => Some (k + n)%nat
    end.
Proof.
  revert d. induction grades as [|g0 grades IH]; intro d.
  - simpl. destruct (Dict.get g d); [f_equal; lia|reflexivity].
  - cbn [fold_left filter]. rewrite IH, get_count_grade.
    destruct (String.eqb g g0); cbn [List.length].
    + destruct (Dict.get g d); f_equal; lia.
    + reflexivity.
Qed.

(** X14. The grade distribution of a report gives, for each grade, the
    number of results with that grade (a result without grade counting
    under N/A), and gives nothing for a grade no result has; the count of
    the report is the number of results. *)
Theorem grade_distribution_counts_results (rs : list ResultEntry) (a : Analytics) :
  generate_analytics rs = Report a ->
  count (summary a) = List.length rs
  /\ forall g,
       Dict.get g (grade_distribution (summary a))
       = match List.length
                 (filter (String.eqb g)
                    (map (fun r => match re_grade r with Some x => x | None => "N/A" end) rs))
         with
         | O => None
         | n => Some n
         end.
Proof.
  intro E. destruct (report_fields rs a E) as (_ & C & _ & D & _).
  split; [exact C|]. intro g. rewrite D, count_grades_from. reflexivity.
Qed.

(** *** Minimum, maximum and mean *)

Lemma fold_min_spec (l : list Z) (x : Z) :
  (fold_left Z.min l x <= x)%Z
  /\ Forall (fun y => (fold_left Z.min l x <= y)%Z) l
  /\ In (fold_left Z.min l x) (x :: l).
Proof.
  revert x. induction l as [|y l IH]; intro x; simpl.
  - repeat split; [lia|constructor|now left].
  - destruct (IH (Z.min x y)) as [L [F I]]. repeat split.
    + lia.
    + constructor; [lia|exact F].
    + destruct I as [E|I]; [|now right; right].
      rewrite <- E. destruct (Z.min_spec x y) as [[_ ->]|[_ ->]]; [now left|right; now left].
Qed.

Lemma fold_max_spec (l : list Z) (x : Z) :
  (x <= fold_left Z.max l x)%Z
  /\ Forall (fun y => (y <= fold_left Z.max l x)%Z) l
  /\ In (fold_left Z.max l x) (x :: l).
Proof.
  revert x. induction l as [|y l IH]; intro x; simpl.
  - repeat split; [lia|constructor|now left].
  - destruct (IH (Z.max x y)) as [L [F I]]. repeat split.
    + lia.
    + constructor; [lia|exact F].
    + destruct I as [E|I]; [|now right; right].
      rewrite <- E. destruct (Z.max_spec x y) as [[_ ->]|[_ ->]]; [right; now left|now left].
Qed.

Lemma of_nat_succ (n : nat) : PyNum.of_nat (S n) == PyNum.of_nat n + 1.
Proof.
  unfold PyNum.of_nat. rewrite Nat2Z.inj_succ. unfold Z.succ.
  now rewrite inject_Z_plus.
Qed.

Lemma of_nat_nonneg (n : nat) : 0 <= PyNum.of_nat n.
Proof.
  unfold PyNum.of_nat. change 0 with (inject_Z 0). rewrite <- Zle_Qle. lia.
Qed.

Lemma sum_between (lo hi : Q) (l : list Q) :
  Forall (fun q => lo <= q <= hi) l ->
  lo * PyNum.of_nat (List.length l) <= fold_right Qplus 0 l
  /\ fold_right Qplus 0 l <= hi * PyNum.of_nat (List.length l).
Proof.
  induction 1 as [|q l [L U] F [IL IU]]; cbn [List.length fold_right].
  - change (PyNum.of_nat 0) with 0. split; lra.
  - rewrite of_nat_succ. split; lra.
Qed.

Lemma mean_between (lo hi : Q) (l : list Q) :
  l <> [] -> Forall (fun q => lo <= q <= hi) l -> lo <= mean l <= hi.
Proof.
  intros NE F. rewrite mean_is_arithmetic_mean. unfold Spec.arithmetic_mean.
  destruct (sum_between lo hi l F) as [L U].
  assert (P : 0 < PyNum.of_nat (List.length l)).
  { destruct l as [|x l]; [congruence|]. cbn [List.length].
    rewrite of_nat_succ. pose proof (of_nat_nonneg (List.length l)). lra. }
  split.
  - apply Qle_shift_div_l; assumption.
  - apply Qle_shift_div_r; assumption.
Qed.

(** X15. In a report the minimum and the maximum word count are word counts
    of results (0 for a result without one), every word count lies between
    them, and so does the average word count. *)
Theorem word_count_statistics_are_ordered (rs : list ResultEntry) (a : Analytics) :
  generate_analytics rs = Report a ->
  let counts := map (stat_or_zero se_word_count) rs in
  let st := statistics_word_count a in
  In (wc_minimum st) counts /\ In (wc_maximum st) counts
  /\ Forall (fun w => (wc_minimum st <= w <= wc_maximum st)%Z) counts
  /\ inject_Z (wc_minimum st) <= wc_average st <= inject_Z (wc_maximum st).
Proof.
  intro E. destruct (report_fields rs a E) as (NE & _ & _ & _ & _ & _ & _ & A & Mi & Ma & _).
  cbv zeta. rewrite A, Mi, Ma.
  set (counts := map (stat_or_zero se_word_count) rs).
  assert (NC : counts <> []) by (subst counts; destruct rs; [congruence|discriminate]).
  clearbody counts. destruct counts as [|c counts]; [congruence|].
  assert (B : In (list_min (c :: counts)) (c :: counts)
              /\ In (list_max (c :: counts)) (c :: counts)
              /\ Forall (fun w => (list_min (c :: counts) <= w <= list_max (c :: counts))%Z)
                   (c :: counts)).
  { unfold list_min, list_max.
    destruct (fold_min_spec counts c) as [L1 [F1 I1]].
    destruct (fold_max_spec counts c) as [L2 [F2 I2]].
    repeat split; try assumption.
    constructor; [lia|].
    apply Forall_forall. intros w I.
    pose proof (proj1 (Forall_forall _ _) F1 w I) as M1.
    pose proof (proj1 (Forall_forall _ _) F2 w I) as M2.
    cbv beta in M1, M2. lia. }
  destruct B as [I1 [I2 F]].
  split; [exact I1|split; [exact I2|split; [exact F|]]].
  apply mean_between; [discriminate|].
  apply Forall_forall. intros q Iq. apply in_map_iff in Iq.
  destruct Iq as [w [<- Iw]].
  pose proof (proj1 (Forall_forall _ _) F w Iw) as [Lw Uw].
  rewrite <- !Zle_Qle. split; assumption.
Qed.

(** *** Weaknesses *)

Lemma classify_weaknesses (items : Dict.t Q) (acc : list string * list string) :
  snd (fold_left classify items acc)
  = snd acc ++ map fst (filter (fun item => negb (Qle_bool 70 (snd item))
                                            && Qle_bool (snd item) 50) items).
Proof.
  revert acc. induction items as [|[n avg] items IH]; intro acc; simpl.
  - now rewrite app_nil_r.
  - rewrite IH. destruct (Qle_bool 70 avg); simpl; [reflexivity|].
    destruct (Qle_bool avg 50); simpl; [now rewrite <- app_assoc|reflexivity].
Qed.

Lemma weaknesses_by_average (rs : list ResultEntry) (n : string) :
  In n (snd (fold_left classify (criteria_averages rs) ([], [])))
  <-> exists avg, Dict.get n (criteria_averages rs) = Some avg /\ avg <= 50.
Proof.
  rewrite classify_weaknesses. simpl snd. rewrite app_nil_l.
  assert (ND : NoDup (Dict.keys (criteria_averages rs))).
  { unfold criteria_averages. rewrite keys_map_values. apply collected_nodup. }
  rewrite in_map_iff. split.
  - intros [[k avg] [E I]]. simpl in E. subst k.
    apply filter_In in I. destruct I as [I L]. simpl in L.
    apply andb_true_iff in L. destruct L as [_ L].
    exists avg. split; [now apply in_get|now apply Qle_bool_iff].
  - intros [avg [G L]]. exists (n, avg). split; [reflexivity|].
    apply filter_In. split; [now apply get_in|]. simpl.
    apply andb_true_iff. split; [|now apply Qle_bool_iff].
    apply negb_true_iff. apply Qle_bool_false. lra.
Qed.

(** X16. The weaknesses of a report are exactly the criterion names whose
    average is at most 50, and no name is both a strength and a weakness. *)
Theorem weaknesses_are_low_averages (rs : list ResultEntry) (a : Analytics) :
  generate_analytics rs = Report a ->
  (forall n,
      In n (ca_weaknesses (criteria_analysis a))
      <-> exists avg, Dict.get n (averages (criteria_analysis a)) = Some avg /\ avg <= 50)
  /\ (forall n, ~ (In n (ca_strengths (criteria_analysis a))
                   /\ In n (ca_weaknesses (criteria_analysis a)))).
Proof.
  intro E. destruct (report_fields rs a E) as (_ & _ & _ & _ & A & S & W & _).
  rewrite A, S, W. split.
  - intro n. apply weaknesses_by_average.
  - intros n [Is Iw].
    apply strengths_by_average in Is. apply weaknesses_by_average in Iw.
    destruct Is as [s [Gs Ls]]. destruct Iw as [w [Gw Lw]].
    rewrite Gs in Gw. injection Gw as ->. lra.
Qed.

End AnalyticsStatistics.

Lemma grade_distribution_counts_results_witness :
  exists a,
    AssessmentAI.generate_analytics [Demo.one_result; Demo.one_result] = AssessmentAI.Report a
    /\ Dict.get "B" (AssessmentAI.grade_distribution (AssessmentAI.summary a)) = Some 2%nat.
Proof.
  eexists. split; [reflexivity|].
  exact (proj2 (grade_distribution_counts_results
                  [Demo.one_result; Demo.one_result] _ eq_refl) "B").
Defined.

Lemma word_count_statistics_are_ordered_witness :
  exists a,
    AssessmentAI.generate_analytics [Demo.one_result] = AssessmentAI.Report a
    /\ In (AssessmentAI.wc_minimum (AssessmentAI.statistics_word_count a))
         (map (AssessmentAI.stat_or_zero AssessmentAI.se_word_count) [Demo.one_result]).
Proof.
  eexists. split; [reflexivity|].
  exact (proj1 (word_count_statistics_are_ordered [Demo.one_result] _ eq_refl)).
Defined.

Lemma weaknesses_are_low_averages_witness :
  exists a,
    AssessmentAI.generate_analytics [Demo.one_result] = AssessmentAI.Report a
    /\ ~ (In "Content" (AssessmentAI.ca_strengths (AssessmentAI.criteria_analysis a))
          /\ In "Content" (AssessmentAI.ca_weaknesses (AssessmentAI.criteria_analysis a))).
Proof.
  eexists. split; [reflexivity|].
  exact (proj2 (weaknesses_are_low_averages [Demo.one_result] _ eq_refl) "Content").
Defined.

(** ** Analytics over the results of the marking engine *)

Section EngineAnalytics.

Context `{Capabilities}.

Import AssessmentAI.

Local Open Scope Q_scope.

Lemma engine_percentage_between (text : string) (brief : BriefAnalysis) (r : RubricAnalysis) :
  rubric_criteria r <> [] ->
  30 <= percentage (mark_student_work text brief r) <= 90.
Proof.
  intro NE. unfold mark_student_work. cbn [percentage].
  set (st := fold_left _ _ _).
  assert (Hn : (0 < Z.of_nat (List.length (rubric_criteria r)))%Z).
  { destruct (rubric_criteria r); [congruence|simpl; lia]. }
  assert (Hmax : ms_max_score st = (10 * Z.of_nat (List.length (rubric_criteria r)))%Z).
  { subst st. rewrite loop_max_score. cbn [ms_max_score]. lia. }
  assert (Htot : (3 * Z.of_nat (List.length (rubric_criteria r)) <= ms_total_score st
                  <= 9 * Z.of_nat (List.length (rubric_criteria r)))%Z).
  { subst st. pose proof (loop_total_score text (nlp text) (rubric_criteria r)
      {| ms_criteria_marks := []; ms_total_score := 0; ms_max_score := 0 |}) as B.
    cbn [ms_total_score] in B. lia. }
  assert (Hpos : (0 <? ms_max_score st)%Z = true) by (apply Z.ltb_lt; lia).
  rewrite Hpos. apply (percentage_between _ _ _ Hn Hmax Htot).
Qed.

Lemma percentage_at_most (k s : Z) :
  inject_Z s / inject_Z 10 * 100 <= inject_Z (10 * k) <-> (s <= k)%Z.
Proof.
  unfold Qle, Qdiv, Qmult, Qinv, inject_Z. cbn [Qnum Qden].
  change (Z.pos (1 * 10 * 1)) with 10%Z. lia.
Qed.

Lemma engine_mark_percentage (text : string) (doc : Doc) (c : Criterion) :
  30 <= entry_percentage (View.entry_of_mark (criterion_mark text doc c)) <= 90.
Proof.
  unfold entry_percentage, View.entry_of_mark, criterion_mark.
  cbn [me_max_score me_score cm_score cm_max_score].
  change (PyNum.Qltb 0 (inject_Z 10)) with true. cbv iota.
  pose proof (score_bounds doc c) as [L U]. split.
  - now apply (percentage_at_least 3).
  - now apply (percentage_at_most 9).
Qed.

Lemma engine_marks_between (subs : list (string * BriefAnalysis * RubricAnalysis)) (n : string) :
  Forall (fun q => 30 <= q <= 90) (Spec.percentages_named n (View.engine_entries subs)).
Proof.
  apply Forall_forall. intros q I.
  unfold Spec.percentages_named, Spec.marks_named in I.
  apply in_map_iff in I. destruct I as [c [<- I]].
  apply filter_In in I. destruct I as [I _].
  apply in_flat_map in I. destruct I as [e [Ie Ic]].
  unfold View.engine_entries in Ie. apply in_map_iff in Ie. destruct Ie as [s [<- _]].
  unfold entry_marks, View.entry_of_result in Ic. cbn [re_criteria_marks] in Ic.
  rewrite marks_of_result in Ic. rewrite map_map in Ic.
  apply in_map_iff in Ic. destruct Ic as [c' [<- _]].
  apply engine_mark_percentage.
Qed.

(** X17. Aggregating the results the marking engine gives for submissions
    marked against rubrics with at least one criterion yields a report (not
    the error value) whose average percentage and whose average of every
    criterion lie between 30 and 90. *)
Theorem analytics_of_engine_results
    (subs : list (string * BriefAnalysis * RubricAnalysis)) :
  subs <> [] ->
  Forall (fun s => rubric_criteria (snd s) <> []) subs ->
  exists a,
    generate_analytics (View.engine_entries subs) = Report a
    /\ 30 <= avg_percentage (summary a) <= 90
    /\ forall n avg,
         Dict.get n (averages (criteria_analysis a)) = Some avg -> 30 <= avg <= 90.
Proof.
  intros NE F.
  assert (NE' : View.engine_entries subs <> []).
  { destruct subs; [congruence|discriminate]. }
  destruct (generate_analytics (View.engine_entries subs)) as [e|a] eqn:E.
  { destruct (View.engine_entries subs); [congruence|discriminate]. }
  exists a. split; [reflexivity|].
  destruct (report_fields _ a E) as (_ & _ & P & _ & A & _).
  rewrite P, A. split.
  - apply mean_between.
    + destruct (View.engine_entries subs); [congruence|discriminate].
    + apply Forall_forall. intros q I. apply in_map_iff in I.
      destruct I as [e [<- Ie]]. unfold View.engine_entries in Ie.
      apply in_map_iff in Ie. destruct Ie as [s [<- Is]].
      cbn [View.entry_of_result re_percentage].
      apply engine_percentage_between.
      now apply (proj1 (Forall_forall _ _) F).
  - intros n avg G. rewrite averages_by_name in G.
    pose proof (engine_marks_between subs n) as B.
    destruct (Spec.percentages_named n (View.engine_entries subs)) as [|x l]; [discriminate|].
    injection G as <-. apply mean_between; [discriminate|exact B].
Qed.

End EngineAnalytics.

Lemma analytics_of_engine_results_witness :
  exists a,
    AssessmentAI.generate_analytics
      (View.engine_entries (H := Demo.world)
         [("An essay of quality", Demo.brief, Demo.rubric 40 60)]) = AssessmentAI.Report a
    /\ (30 <= AssessmentAI.avg_percentage (AssessmentAI.summary a) <= 90)%Q.
Proof.
  destruct (analytics_of_engine_results (H := Demo.world)
              [("An essay of quality", Demo.brief, Demo.rubric 40 60)])
    as [a [E [B _]]].
  - discriminate.
  - repeat constructor. discriminate.
  - exists a. split; [exact E|exact B].
Defined.

(** ** Recommendation generator *)

Section Recommendations.

Import AssessmentAI.

Local Open Scope Q_scope.

Lemma recommendations_decomposed (a : AnalyticsView) :
  view_nonempty a = true -> av_has_error a = false ->
  generate_recommendations (Some a)
  = map weakness_recommendation (view_weaknesses a)
    ++ ((if PyNum.Qltb (view_avg_percentage a) 60 then [below_expectations]
         else if PyNum.Qltb 80 (view_avg_percentage a) then [raise_challenge]
         else [])
        ++ (if PyNum.Qltb (view_average stv_word_count a) 500 then [brief_submissions] else [])
        ++ (if PyNum.Qltb (view_average stv_url_usage a) 2 then [few_sources] else []))
    ++ [example_work; peer_review].
Proof.
  intros N E. unfold generate_recommendations. rewrite N, E. cbn [negb orb].
  destruct (PyNum.Qltb (view_avg_percentage a) 60);
    [|destruct (PyNum.Qltb 80 (view_avg_percentage a))];
    destruct (PyNum.Qltb (view_average stv_word_count a) 500);
    destruct (PyNum.Qltb (view_average stv_url_usage a) 2);
    cbn [app]; rewrite <- ?app_assoc; cbn [app]; rewrite ?app_nil_r; reflexivity.
Qed.

Lemma content_recommendations (ws : list string) :
  filter (fun r => String.eqb (rec_type r) "content") (map weakness_recommendation ws)
  = map weakness_recommendation ws.
Proof.
  induction ws as [|w ws IH]; [reflexivity|].
  cbn [map filter]. change (String.eqb (rec_type (weakness_recommendation w)) "content") with true.
  cbv iota. now rewrite IH.
Qed.

Lemma other_type_not_for_weakness (r : Recommendation) (ws : list string) :
  rec_type r <> "content" -> ~ In r (map weakness_recommendation ws).
Proof.
  intros T I. apply in_map_iff in I. destruct I as [w [<- _]]. now apply T.
Qed.

(** X18. From analytics that are a non-empty dictionary without error key,
    the recommendations are: one high-priority content recommendation for
    each weakness, in their order; then at most three recommendations of
    type assessment or guidance; then the two fixed ones.  The review of the
    brief is recommended exactly when the average percentage is below 60 and
    a higher challenge exactly when it is above 80. *)
Theorem recommendations_shape (a : AnalyticsView) :
  view_nonempty a = true -> av_has_error a = false ->
  let recs := generate_recommendations (Some a) in
  (exists middle,
      recs = map weakness_recommendation (view_weaknesses a)
             ++ middle ++ [example_work; peer_review]
      /\ (List.length middle <= 3)%nat
      /\ Forall (fun r => rec_type r = "assessment" \/ rec_type r = "guidance") middle)
  /\ filter (fun r => String.eqb (rec_type r) "content") recs
     = map weakness_recommendation (view_weaknesses a)
  /\ (In below_expectations recs <-> view_avg_percentage a < 60)
  /\ (In raise_challenge recs <-> 80 < view_avg_percentage a).
Proof.
  intros N E. cbv zeta. rewrite (recommendations_decomposed a N E).
  assert (Tb : ~ In below_expectations (map weakness_recommendation (view_weaknesses a)))
    by (apply other_type_not_for_weakness; discriminate).
  assert (Tr : ~ In raise_challenge (map weakness_recommendation (view_weaknesses a)))
    by (apply other_type_not_for_weakness; discriminate).
  set (ws := map weakness_recommendation (view_weaknesses a)) in *.
  pose proof (content_recommendations (view_weaknesses a)) as C. fold ws in C.
  clearbody ws.
  destruct (PyNum.Qltb (view_avg_percentage a) 60) eqn:A;
    [apply Qltb_true in A
    |apply Qltb_false in A; destruct (PyNum.Qltb 80 (view_avg_percentage a)) eqn:B;
     [apply Qltb_true in B|apply Qltb_false in B]];
    destruct (PyNum.Qltb (view_average stv_word_count a) 500);
    destruct (PyNum.Qltb (view_average stv_url_usage a) 2);
    (split; [eexists; split;
               [reflexivity|split; [cbn; lia|cbn [app]; repeat constructor; cbn; tauto]]|]);
    cbn [app];
    (split; [rewrite filter_app, C; cbn; apply app_nil_r|]);
    split; split; intro K; try assumption;
    try (apply in_or_app; right; cbn; tauto);
    try (exfalso; lra);
    apply in_app_or in K; destruct K as [K|K]; try contradiction;
    cbn in K; exfalso; intuition discriminate.
Qed.

(** X19. Without analytics, with an empty dictionary or with the error
    dictionary, in particular with what the aggregator returns for no
    result, the only recommendation is the low-priority one that there is
    not enough data. *)
Theorem no_data_gives_one_recommendation :
  generate_recommendations None = [insufficient_data]
  /\ (forall a, av_has_error a = true \/ view_nonempty a = false ->
                generate_recommendations (Some a) = [insufficient_data])
  /\ generate_recommendations (Some (View.view_of_analytics (generate_analytics [])))
     = [insufficient_data].
Proof.
  split; [reflexivity|split; [|reflexivity]].
  intros a [E|N]; unfold generate_recommendations.
  - rewrite E. now rewrite orb_true_r.
  - now rewrite N.
Qed.

(** *** After the aggregator *)

Lemma append_inv_tail (s1 s2 t : string) : (s1 ++ t = s2 ++ t)%string -> s1 = s2.
Proof.
  intro E.
  assert (L : String.length s1 = String.length s2).
  { apply (f_equal String.length) in E. rewrite !length_append in E. lia. }
  revert s2 E L. induction s1 as [|c s1 IH]; intros [|c2 s2] E L; try discriminate L.
  - reflexivity.
  - cbn in E. injection E as -> E. f_equal. apply IH; [exact E|].
    cbn in L. lia.
Qed.

Lemma weakness_recommendation_inj (w1 w2 : string) :
  weakness_recommendation w1 = weakness_recommendation w2 -> w1 = w2.
Proof.
  unfold weakness_recommendation. intros [= E].
  now apply append_inv_tail in E.
Qed.

(** X20. For a non-empty sequence of results, the recommendations made from
    the report of the aggregator hold the content recommendation of a
    criterion exactly when the average of that criterion is at most 50;
    they never hold the not-enough-data recommendation and they end with the
    two fixed ones. *)
Theorem recommendations_follow_weak_criteria (rs : list ResultEntry) :
  rs <> [] ->
  exists a,
    generate_analytics rs = Report a
    /\ let recs := generate_recommendations (Some (View.view_of_analytics (Report a))) in
       (forall n,
           In (weakness_recommendation n) recs
           <-> exists avg, Dict.get n (averages (criteria_analysis a)) = Some avg /\ avg <= 50)
       /\ ~ In insufficient_data recs
       /\ exists front, recs = front ++ [example_work; peer_review].
Proof.
  intro NE.
  destruct (generate_analytics rs) as [e|a] eqn:E.
  { destruct rs; [congruence|discriminate]. }
  exists a. split; [reflexivity|]. cbv zeta.
  rewrite recommendations_decomposed by reflexivity.
  change (view_weaknesses (View.view_of_analytics (Report a)))
    with (ca_weaknesses (criteria_analysis a)).
  match goal with
  | |- context [_ ++ ?m ++ [example_work; peer_review]] => set (middle := m)
  end.
  assert (M : Forall (fun r => rec_type r = "assessment" \/ rec_type r = "guidance") middle).
  { subst middle.
    repeat match goal with
      | |- context [if ?b then _ else _] => destruct b
      end; cbn [app];
      repeat (apply Forall_cons; [cbn; tauto|]); apply Forall_nil. }
  clearbody middle.
  destruct (report_fields rs a E) as (_ & _ & _ & _ & A & _ & W & _).
  split; [|split].
  - intro n. rewrite A, <- weaknesses_by_average, <- W. split.
    + intro I. apply in_app_or in I. destruct I as [I|I].
      * apply in_map_iff in I. destruct I as [w [Ew Iw]].
        apply weakness_recommendation_inj in Ew. now subst w.
      * exfalso. apply in_app_or in I. destruct I as [I|I].
        -- pose proof (proj1 (Forall_forall _ _) M _ I) as [T|T]; discriminate T.
        -- cbn in I. intuition discriminate.
    + intro I. apply in_or_app. left. now apply in_map.
  - intro I. apply in_app_or in I. destruct I as [I|I].
    + apply in_map_iff in I. destruct I as [w [Ew _]]. discriminate Ew.
    + apply in_app_or in I. destruct I as [I|I].
      * pose proof (proj1 (Forall_forall _ _) M _ I) as [T|T]; discriminate T.
      * cbn in I. intuition discriminate.
  - eexists. rewrite app_assoc. reflexivity.
Qed.

End Recommendations.

Lemma recommendations_shape_witness :
  let a := View.view_of_analytics (AssessmentAI.generate_analytics [Demo.one_result]) in
  AssessmentAI.view_nonempty a = true
  /\ AssessmentAI.av_has_error a = false
  /\ filter (fun r => String.eqb (AssessmentAI.rec_type r) "content")
       (AssessmentAI.generate_recommendations (Some a))
     = map AssessmentAI.weakness_recommendation (AssessmentAI.view_weaknesses a).
Proof.
  cbv zeta. split; [reflexivity|split; [reflexivity|]].
  exact (proj1 (proj2 (recommendations_shape
                         (View.view_of_analytics
                            (AssessmentAI.generate_analytics [Demo.one_result]))
                         eq_refl eq_refl))).
Defined.

Lemma no_data_gives_one_recommendation_witness :
  let a := View.view_of_analytics (AssessmentAI.NoData "No marking results provided") in
  AssessmentAI.av_has_error a = true
  /\ AssessmentAI.generate_recommendations (Some a) = [AssessmentAI.insufficient_data].
Proof.
  cbv zeta. split; [reflexivity|].
  apply (proj1 (proj2 no_data_gives_one_recommendation)).
  left. reflexivity.
Defined.

Lemma recommendations_follow_weak_criteria_witness :
  [Demo.one_result] <> []
  /\ exists a, AssessmentAI.generate_analytics [Demo.one_result] = AssessmentAI.Report a.
Proof.
  assert (NE : [Demo.one_result] <> []) by discriminate.
  split; [exact NE|].
  destruct (recommendations_follow_weak_criteria [Demo.one_result] NE) as [a [E _]].
  exists a. exact E.
Defined.

(** ** Marking engine: extreme submissions *)

Section ExtremeSubmissions.

Context `{Capabilities}.

Import AssessmentAI.

Local Open Scope Q_scope.

Lemma prefix_same (s : string) : prefix s s = true.
Proof.
  induction s as [|c s IH]; [reflexivity|].
  simpl. destruct (ascii_dec c c); [exact IH|congruence].
Qed.

Lemma contains_same (s : string) : PyStr.contains s s = true.
Proof.
  destruct s; simpl; [reflexivity|].
  destruct (ascii_dec a a); [|congruence]. now rewrite prefix_same.
Qed.

Lemma filter_all {A : Type} (p : A -> bool) (l : list A) :
  (forall x, In x l -> p x = true) -> filter p l = l.
Proof.
  induction l as [|x l IH]; intro P; [reflexivity|].
  simpl. rewrite (P x (or_introl eq_refl)). f_equal. apply IH. intros y I. apply P. now right.
Qed.

Lemma filter_none {A : Type} (p : A -> bool) (l : list A) :
  (forall x, In x l -> p x = false) -> filter p l = [].
Proof.
  induction l as [|x l IH]; intro P; [reflexivity|].
  simpl. rewrite (P x (or_introl eq_refl)). apply IH. intros y I. apply P. now right.
Qed.

Lemma of_nat_positive (n : nat) : 0 < PyNum.of_nat (S n).
Proof.
  rewrite of_nat_succ. pose proof (of_nat_nonneg n). lra.
Qed.

Lemma whole_fraction (n : nat) : PyNum.of_nat (S n) / PyNum.of_nat (S n) == 1.
Proof.
  unfold Qdiv. apply Qmult_inv_r. pose proof (of_nat_positive n). lra.
Qed.

Lemma zero_fraction (n : nat) : PyNum.of_nat 0 / PyNum.of_nat (S n) == 0.
Proof.
  unfold Qdiv. change (PyNum.of_nat 0) with 0. apply Qmult_0_l.
Qed.

(** X21. When every key topic of the brief is also a topic of the
    submission, the topic coverage is 1, whatever the similarity says. *)
Theorem included_topics_give_full_coverage (student_topics brief_topics : list string) :
  brief_topics <> [] ->
  (forall b, In b brief_topics -> In b student_topics) ->
  _calculate_topic_coverage student_topics brief_topics == 1.
Proof.
  intros NE I. unfold _calculate_topic_coverage, count_covered.
  destruct brief_topics as [|b0 rest] eqn:E; [congruence|]. rewrite <- E in *.
  rewrite count_covered_from. cbn [Nat.add].
  rewrite filter_all.
  - rewrite E. apply whole_fraction.
  - intros b Ib. unfold Spec.covered. apply existsb_exists.
    exists b. split; [now apply I|]. now rewrite contains_same.
Qed.

(** *** All keywords, no keyword *)

Lemma relevance_of_whole (x : Q) :
  x == 1 -> PyNum.min (9 # 10) (PyNum.max (3 # 10) x) = 9 # 10.
Proof.
  intro E. unfold PyNum.min, PyNum.max.
  assert (A : PyNum.Qltb (3 # 10) x = true) by (apply Qltb_true; lra).
  rewrite A.
  assert (B : PyNum.Qltb x (9 # 10) = false) by (apply Qltb_false; lra).
  now rewrite B.
Qed.

Lemma relevance_of_zero (x : Q) :
  x == 0 -> PyNum.min (9 # 10) (PyNum.max (3 # 10) x) = 3 # 10.
Proof.
  intro E. unfold PyNum.min, PyNum.max.
  assert (A : PyNum.Qltb (3 # 10) x = false) by (apply Qltb_false; lra).
  rewrite A. reflexivity.
Qed.

Lemma keyword_extremes (doc : Doc) (c : Criterion) :
  criterion_keywords_of c <> [] ->
  ((forall k, In k (criterion_keywords_of c) -> Spec.present_in (doc_text doc) k = true) ->
   criterion_score doc c = 9%Z)
  /\ ((forall k, In k (criterion_keywords_of c) -> Spec.present_in (doc_text doc) k = false) ->
      criterion_score doc c = 3%Z).
Proof.
  intro NE. unfold criterion_score, _calculate_criterion_relevance.
  destruct (criterion_keywords_of c) as [|k0 ks] eqn:E; [congruence|].
  rewrite count_keywords_filter. split; intro P.
  - rewrite (filter_all _ _ P), relevance_of_whole; [reflexivity|].
    apply (whole_fraction (List.length ks)).
  - rewrite (filter_none _ _ P), relevance_of_zero; [reflexivity|].
    apply (zero_fraction (List.length ks)).
Qed.

(** X22. In a marking result, a criterion with keywords scores 9 out of 10,
    not 10, when every keyword occurs in the submission, and 3, not 0, when
    none does. *)
Theorem keyword_extremes_score_9_and_3
    (text : string) (brief : BriefAnalysis) (r : RubricAnalysis) :
  Forall2
    (fun c m =>
       criterion_keywords_of c <> [] ->
       ((forall k, In k (criterion_keywords_of c) ->
                   Spec.present_in (doc_text (nlp text)) k = true) ->
        cm_score m = 9%Z)
       /\ ((forall k, In k (criterion_keywords_of c) ->
                      Spec.present_in (doc_text (nlp text)) k = false) ->
           cm_score m = 3%Z))
    (rubric_criteria r)
    (criteria_marks (mark_student_work text brief r)).
Proof.
  rewrite marks_of_result.
  induction (rubric_criteria r) as [|c cs IH]; simpl; constructor; [|exact IH].
  apply keyword_extremes.
Qed.

Lemma absent_from_empty (k : string) : k <> EmptyString -> Spec.present_in EmptyString k = false.
Proof.
  intro NE. unfold Spec.present_in. destruct k as [|a k]; [congruence|reflexivity].
Qed.

Lemma percentage_of_threes (total full n : Z) :
  (0 < n)%Z -> full = (10 * n)%Z -> total = (3 * n)%Z ->
  inject_Z total / inject_Z full * 100 == 30.
Proof.
  intros Hn Hfull Ht. destruct full as [|p|p]; try lia.
  unfold Qeq, Qdiv, Qmult, Qinv, inject_Z; simpl.
  rewrite !Z.mul_1_r, ?Pos.mul_1_r. lia.
Qed.

Lemma total_of_threes (l : list CriterionMark) :
  Forall (fun m => cm_score m = 3%Z) l ->
  View.total (map cm_score l) = (3 * Z.of_nat (List.length l))%Z.
Proof.
  induction 1 as [|m l E F IH]; [reflexivity|].
  cbn [map View.total fold_right List.length]. unfold View.total in IH.
  rewrite IH, E. lia.
Qed.

(** X23. A submission whose text is empty, marked against a rubric whose
    criteria all have keywords, none of them empty, and no grade boundary,
    scores 3 on every criterion, 30 percent overall and the grade F. *)
Theorem empty_submission_scores_30_percent
    (text : string) (brief : BriefAnalysis) (r : RubricAnalysis) :
  doc_text (nlp text) = EmptyString ->
  rubric_criteria r <> [] ->
  Forall (fun c => criterion_keywords_of c <> []
                   /\ Forall (fun k => k <> EmptyString) (criterion_keywords_of c))
    (rubric_criteria r) ->
  grade_boundaries r = None \/ grade_boundaries r = Some [] ->
  let res := mark_student_work text brief r in
  Forall (fun m => cm_score m = 3%Z) (criteria_marks res)
  /\ percentage res == 30
  /\ grade res = "F".
Proof.
  intros T NE K B. cbv zeta.
  assert (S3 : Forall (fun m => cm_score m = 3%Z)
                 (map (criterion_mark text (nlp text)) (rubric_criteria r))).
  { apply Forall_forall. intros m I. apply in_map_iff in I. destruct I as [c [<- Ic]].
    cbn [criterion_mark cm_score].
    destruct (proj1 (Forall_forall _ _) K c Ic) as [Kc Nc].
    apply (proj2 (keyword_extremes (nlp text) c Kc)).
    intros k Ik. rewrite T. apply absent_from_empty.
    now apply (proj1 (Forall_forall _ _) Nc). }
  assert (P : percentage (mark_student_work text brief r) == 30).
  { unfold mark_student_work. cbn [percentage].
    set (st := fold_left _ _ _).
    assert (Hn : (0 < Z.of_nat (List.length (rubric_criteria r)))%Z).
    { destruct (rubric_criteria r); [congruence|simpl; lia]. }
    assert (Hmax : ms_max_score st = (10 * Z.of_nat (List.length (rubric_criteria r)))%Z).
    { subst st. rewrite loop_max_score. cbn [ms_max_score]. lia. }
    assert (Htot : ms_total_score st = (3 * Z.of_nat (List.length (rubric_criteria r)))%Z).
    { subst st. rewrite loop_total_is_sum. cbn [ms_total_score].
      rewrite (total_of_threes _ S3), length_map. lia. }
    assert (Hpos : (0 <? ms_max_score st)%Z = true) by (apply Z.ltb_lt; lia).
    rewrite Hpos. apply (percentage_of_threes _ _ _ Hn Hmax Htot). }
  split; [now rewrite marks_of_result|split; [exact P|]].
  assert (G : grade (mark_student_work text brief r)
              = _determine_grade (percentage (mark_student_work text brief r)) []).
  { unfold mark_student_work at 1. cbn [grade].
    destruct B as [-> | ->]; reflexivity. }
  rewrite G, default_grade_is_fixed_band. unfold Spec.fixed_band.
  set (pct := percentage _) in *. clearbody pct.
  assert (E8 : Qle_bool 80 pct = false) by (apply Qle_bool_false; lra).
  assert (E7 : Qle_bool 70 pct = false) by (apply Qle_bool_false; lra).
  assert (E6 : Qle_bool 60 pct = false) by (apply Qle_bool_false; lra).
  assert (E5 : Qle_bool 50 pct = false) by (apply Qle_bool_false; lra).
  now rewrite E8, E7, E6, E5.
Qed.

(** X24. Marking against the analysis of any rubric text never meets the
    case of no criterion: the maximum score is at least 10, there is one
    mark for each criterion of the analysis, and the percentage lies
    between 30 and 90. *)
Theorem parsed_rubric_marks_between_30_and_90
    (rubric_text text : string) (brief : BriefAnalysis) :
  let res := mark_student_work text brief (process_rubric rubric_text) in
  (10 <= max_score res)%Z
  /\ List.length (criteria_marks res)
     = List.length (rubric_criteria (process_rubric rubric_text))
  /\ 30 <= percentage res <= 90.
Proof.
  cbv zeta.
  assert (NE : rubric_criteria (process_rubric rubric_text) <> []).
  { unfold process_rubric, rubric_criteria. cbn [criteria].
    destruct (weighted_pattern_pass rubric_text); [|discriminate].
    destruct (paragraph_heuristic_pass rubric_text); discriminate. }
  split; [|split].
  - rewrite max_score_of_result.
    destruct (rubric_criteria (process_rubric rubric_text)); [congruence|].
    cbn [List.length]. lia.
  - rewrite marks_of_result. apply length_map.
  - now apply engine_percentage_between.
Qed.

End ExtremeSubmissions.

Lemma included_topics_give_full_coverage_witness :
  ["essay quality"] <> []
  /\ (AssessmentAI._calculate_topic_coverage (H := Demo.world)
        ["marking"; "essay quality"] ["essay quality"] == 1)%Q.
Proof.
  split; [discriminate|].
  apply (included_topics_give_full_coverage (H := Demo.world)).
  - discriminate.
  - intros b [<-|[]]. right. left. reflexivity.
Defined.

Lemma keyword_extremes_score_9_and_3_witness :
  Forall (fun m => cm_name m = "Content" -> cm_score m = 9%Z)
    (criteria_marks
       (AssessmentAI.mark_student_work (H := Demo.world) "An essay of quality"
          Demo.brief (Demo.rubric 40 60))).
Proof.
  pose proof (keyword_extremes_score_9_and_3 (H := Demo.world) "An essay of quality"
                Demo.brief (Demo.rubric 40 60)) as F.
  inversion F as [|c m cs ms P Rest Ec Em]. subst.
  constructor.
  - intros _. apply P; [discriminate|].
    intros k [<-|[<-|[]]]; reflexivity.
  - constructor; [discriminate|constructor].
Defined.

Lemma empty_submission_scores_30_percent_witness :
  let r := {| criteria := Some [ {| name := "Content"; weight := Some 100%Z;
                                    description := None; keywords := Some ["essay"] |} ];
              grade_boundaries := None;
              rubric_full_text := EmptyString |} in
  doc_text (nlp (Capabilities := Demo.world) EmptyString) = EmptyString
  /\ grade (AssessmentAI.mark_student_work (H := Demo.world) EmptyString Demo.brief r) = "F".
Proof.
  cbv zeta. split; [reflexivity|].
  apply (empty_submission_scores_30_percent (H := Demo.world) EmptyString Demo.brief).
  - reflexivity.
  - discriminate.
  - repeat constructor; discriminate.
  - left. reflexivity.
Defined.

Lemma brief_sentences_are_classified_witness :
  let analysis :=
    AssessmentAI.process_assessment_brief (H := Demo.world) "Students MUST submit an Essay" in
  In "Students MUST submit an Essay" (requirements analysis)
  /\ In "Students MUST submit an Essay" (submission_details analysis).
Proof.
  cbv zeta.
  destruct (brief_sentences_are_classified (H := Demo.world) "Students MUST submit an Essay")
    as [_ [_ [_ C]]].
  split.
  - apply (proj1 (C "Students MUST submit an Essay" "must"
                    (or_introl eq_refl) eq_refl)).
    left. reflexivity.
  - apply (proj2 (proj2 (C "Students MUST submit an Essay" "submit"
                           (or_introl eq_refl) eq_refl))).
    left. reflexivity.
Defined.

(** ** Analytics aggregator in binary64 *)

Section Binary64Aggregator.

Import Binary64.













End Binary64Aggregator.


